(** * ZED camera streaming for the Unitree G1: producer and viewer

    A shallow embedding of [scripts/stream_zed.py] (class [ZEDStreamer],
    [main]) and [scripts/view_zed_cam.py] (class [CameraViewer]), and the
    properties of the frame pipeline proved about it.

    Conventions of the embedding.
    - Python dictionaries with string keys are [gmap string pyval].
    - Wall-clock readings ([time.time()]) and durations are exact rationals
      ([Q], compared with [==]); rounding of binary floating point is not
      modelled.
    - Calls into the collaborating libraries (ZED SDK, ZeroMQ, OpenCV,
      [print]) are recorded, in order, in a log of [call]s; what those
      libraries answer is an argument of the function that asks.
    - A line printed from a format string is logged by its fixed leading
      text.
    - A Python exception is the [Raise] outcome of the state-and-exception
      monad [M]; the state survives a raise, as object fields do. *)

From Stdlib Require Import ZArith QArith Lqa Lia List String Ascii.
From stdpp Require Import base gmap strings list.

Close Scope Q_scope.
Open Scope Z_scope.
Open Scope string_scope.

(** ** Python values *)

(** A colour image as nested sequences: rows, pixels, channels ([uint8]). *)
Definition image : Type := list (list (list Z)).

(** A depth map: rows of [float32] values, each kept as its 32-bit pattern,
    so that equality of depth maps is equality byte for byte. *)
Definition depth : Type := list (list Z).

(** Spatial dimensions [(height, width)] of an array given by rows. *)
Definition dims {A : Type} (rows : list (list A)) : nat * nat :=
  (length rows, match rows with [] => 0%nat | r :: _ => length r end).

#[local] Set Warnings "-register-all".
Inductive pyval : Type :=
| VNone
| VFloat (q : Q)
| VStr (s : string)
| VImage (a : image)
| VDepth (a : depth)
| VDict (d : gmap string pyval).

(** Python truthiness of a value ([if not images]). *)
Definition truthy (v : pyval) : bool :=
  match v with
  | VNone => false
  | VFloat q => negb (Qeq_bool q 0)
  | VStr s => negb (String.eqb s EmptyString)
  | VImage _ | VDepth _ => true
  | VDict d => negb (bool_decide (d = ∅))
  end.

(** ** Exceptions and the state-and-exception monad *)

Inductive exn : Type :=
| RuntimeError (msg : string)
| KeyError (key : string)
| KeyboardInterrupt
| ZeroDivisionError
| AttributeError
| TypeError
| ZMQError
| UnpackException
| binascii_Error
| cv2_error.

(** How far a piece of code got: it returned, it raised, or it is still
    inside a loop when the supplied inputs end ([Unfinished]: a prefix of a
    longer execution, after which nothing has run yet). *)
Inductive outcome (A : Type) : Type :=
| Ret (a : A)
| Raise (e : exn)
| Unfinished.
Arguments Ret {A} a.
Arguments Raise {A} e.
Arguments Unfinished {A}.

Definition M (S A : Type) : Type := S -> outcome A * S.

Definition ret {S A} (a : A) : M S A := fun s => (Ret a, s).
Definition raise {S A} (e : exn) : M S A := fun s => (Raise e, s).
Definition unfinished {S A} : M S A := fun s => (Unfinished, s).
Definition bind {S A B} (m : M S A) (k : A -> M S B) : M S B :=
  fun s => match m s with
           | (Ret a, s') => k a s'
           | (Raise e, s') => (Raise e, s')
           | (Unfinished, s') => (Unfinished, s')
           end.
Definition get {S} : M S S := fun s => (Ret s, s).
Definition modify {S} (f : S -> S) : M S unit := fun s => (Ret tt, f s).
Definition lift {S A} (r : outcome A) : M S A := fun s => (r, s).

(** [try: body finally: cleanup]: once the body has returned or raised, the
    cleanup runs on the state the body left; the body's exception is
    re-raised after it unless the cleanup raises one itself. *)
Definition try_finally {S A} (body : M S A) (cleanup : M S unit) : M S A :=
  fun s => match body s with
           | (Unfinished, s') => (Unfinished, s')
           | (r, s') =>
               match cleanup s' with
               | (Ret _, s'') => (r, s'')
               | (Raise e, s'') => (Raise e, s'')
               | (Unfinished, s'') => (Unfinished, s'')
               end
           end.

(** [try: body except E: handler] for the exceptions selected by [catches]. *)
Definition try_except {S A} (body : M S A) (catches : exn -> bool)
    (handler : M S A) : M S A :=
  fun s => match body s with
           | (Raise e, s') => if catches e then handler s' else (Raise e, s')
           | rs => rs
           end.

Declare Scope py_scope.
Delimit Scope py_scope with py.
Notation "x <- m ;; k" := (bind m (fun x => k))
  (at level 100, m at next level, right associativity) : py_scope.
Notation "m ;;; k" := (bind m (fun _ => k))
  (at level 100, right associativity) : py_scope.
Notation "'when' b 'then' m" := (if b then m else ret tt)
  (at level 99, b at level 9, m at level 99) : py_scope.

Definition is_KeyboardInterrupt (e : exn) : bool :=
  match e with KeyboardInterrupt => true | _ => false end.

(** What the body of a loop asks for: the next pass, or [break]. *)
Inductive flow : Type := Continue | Break.

(** [for x in l: body(x)] *)
Fixpoint for_each {S A} (l : list A) (body : A -> M S unit) : M S unit :=
  match l with
  | [] => ret tt
  | x :: rest => bind (body x) (fun _ => for_each rest body)
  end.

(** Truthiness of an optional object ([if self.zmq_socket:]). *)
Definition is_set {A} (o : option A) : bool :=
  match o with Some _ => true | None => false end.

(** [d[key]] on a dictionary. *)
Definition getitem {S} (d : gmap string pyval) (key : string) : M S pyval :=
  match d !! key with
  | Some v => ret v
  | None => raise (KeyError key)
  end.

(** ** Python [str]

    A [str] is a sequence of Unicode code points.  [str.lower] maps the
    ASCII capitals to the ASCII small letters and leaves the other ASCII code
    points alone; what it does outside ASCII is the Unicode case table of
    the Python runtime, taken as the parameter [unicode_lower] wherever
    [lower] is used. *)

Definition str : Type := list N.

Definition of_ascii (s : string) : str :=
  List.map N_of_ascii (list_ascii_of_string s).

Definition lower_cp (unicode_lower : N -> list N) (c : N) : list N :=
  if ((65 <=? c) && (c <=? 90))%N then [(c + 32)%N]
  else if (c <? 128)%N then [c]
  else unicode_lower c.

Definition lower (unicode_lower : N -> list N) (s : str) : str :=
  List.flat_map (lower_cp unicode_lower) s.

(** ** The ZED SDK, ZeroMQ and OpenCV as seen by the scripts *)

Inductive ERROR_CODE : Type :=
| SUCCESS
| FAILURE (code : Z).

Definition is_success (c : ERROR_CODE) : bool :=
  match c with SUCCESS => true | FAILURE _ => false end.

Inductive RESOLUTION : Type := HD2K | HD1080 | HD720 | VGA.

Inductive DEPTH_MODE : Type := ULTRA | NONE.

(** A serialised message.  [msgpack] (with [msgpack_numpy]) is taken to be
    lossless: what is packed is what unpacking yields; the byte layout is not
    modelled.  Bytes that are no msgpack document at all are [Garbage]. *)
Inductive packed : Type :=
| Packed (v : pyval)
| Garbage.

Definition packb (message : gmap string pyval) : packed := Packed (VDict message).

Definition unpackb (p : packed) : outcome pyval :=
  match p with
  | Packed v => Ret v
  | Garbage => Raise UnpackException
  end.

(** Options set on the subscriber socket. *)
Inductive sockopt : Type :=
| SUBSCRIBE (prefix : string)
| CONFLATE (on : bool)
| RCVHWM (n : Z)
| RCVTIMEO (ms : Z).

(** The observable calls, in the order they are made. *)
Inductive call : Type :=
| zed_open (res : RESOLUTION) (camera_fps : Z) (mode : DEPTH_MODE) (serial : option Z)
| zed_grab
| zed_retrieve_image
| zed_retrieve_measure
| zed_close
| zmq_Context
| zmq_socket_PUB
| zmq_socket_SUB
| zmq_setsockopt (o : sockopt)
| zmq_bind (port : Z)
| zmq_connect (ip : string) (port : Z)
| zmq_send (p : packed)
| zmq_recv
| zmq_socket_close
| zmq_context_term
| cv2_VideoWriter (path : string) (rate : Z) (w h : Z)
| cv2_writer_write (frame : image)
| cv2_writer_release
| cv2_putText (text : string)
| cv2_putText_fps (value : Q)
| cv2_putText_latency (ms : Q)
| cv2_imshow (window : string) (frame : image)
| cv2_imshow_depth (frame : depth)
| cv2_imwrite (dir : string) (camera : string) (index : Z) (frame : image)
| cv2_waitKey
| cv2_destroyAllWindows
| os_makedirs (dir : string)
| py_print (line : string)
| py_print_fps (frame_count : Z) (elapsed : Q).

(** Reversal of the channel axis, [a[:, :, ::-1]]. *)
Definition reverse_channels (a : image) : image :=
  List.map (List.map (@List.rev Z)) a.

(** [image_data[:, :, :3][:, :, ::-1].copy()]: keep the first three channels
    of every pixel and reverse their order (BGRA to RGB). *)
Definition bgra_to_rgb (image_data : image) : image :=
  reverse_channels (List.map (List.map (List.firstn 3)) image_data).

(** * The producer: [stream_zed.py] *)

Module ZEDStreamer.

Inductive sl_Mat : Type := Mat.
Inductive zmq_context_t : Type := Context.
Inductive zmq_socket_t : Type := Socket.
Inductive cv2_writer_t : Type := VideoWriter.

(** The fields of a [ZEDStreamer] object. *)
Record t : Type := {
  fps : Z;
  enable_depth : bool;
  running : bool;
  width : Z;
  height : Z;
  depth_map : option sl_Mat;
  zmq_context : option zmq_context_t;
  zmq_socket : option zmq_socket_t;
  video_writer : option cv2_writer_t }.

(** The object together with the calls made so far. *)
Record state : Type := { self : t; log : list call }.

Definition emit (c : call) : M state unit :=
  modify (fun st => {| self := self st; log := log st ++ [c] |}).

Definition update (f : t -> t) : M state unit :=
  modify (fun st => {| self := f (self st); log := log st |}).

Definition set_running (b : bool) (s : t) : t :=
  {| fps := fps s; enable_depth := enable_depth s; running := b;
     width := width s; height := height s; depth_map := depth_map s;
     zmq_context := zmq_context s; zmq_socket := zmq_socket s;
     video_writer := video_writer s |}.

Definition set_zmq_context (c : option zmq_context_t) (s : t) : t :=
  {| fps := fps s; enable_depth := enable_depth s; running := running s;
     width := width s; height := height s; depth_map := depth_map s;
     zmq_context := c; zmq_socket := zmq_socket s;
     video_writer := video_writer s |}.

Definition set_zmq_socket (k : option zmq_socket_t) (s : t) : t :=
  {| fps := fps s; enable_depth := enable_depth s; running := running s;
     width := width s; height := height s; depth_map := depth_map s;
     zmq_context := zmq_context s; zmq_socket := k;
     video_writer := video_writer s |}.

Definition set_video_writer (w : option cv2_writer_t) (s : t) : t :=
  {| fps := fps s; enable_depth := enable_depth s; running := running s;
     width := width s; height := height s; depth_map := depth_map s;
     zmq_context := zmq_context s; zmq_socket := zmq_socket s;
     video_writer := w |}.

(** What the camera answers when it is opened. *)
Record camera : Type := {
  open_status : ERROR_CODE;
  cam_width : Z;
  cam_height : Z }.

Section Methods.
(** The Unicode case table of the runtime outside ASCII (see [lower]). *)
Variable unicode_lower : N -> list N.

Definition resolutions : gmap str RESOLUTION :=
  <[of_ascii "vga" := VGA]>
    (<[of_ascii "720p" := HD720]>
       (<[of_ascii "1080p" := HD1080]>
          (<[of_ascii "2k" := HD2K]> ∅))).

(** [resolutions.get(resolution.lower(), sl.RESOLUTION.HD720)] *)
Definition _parse_resolution (resolution : str) : RESOLUTION :=
  default HD720 (resolutions !! lower unicode_lower resolution).

(** The constructor: the new object and the calls made, or the
    [RuntimeError] raised when the camera does not open. *)
Definition __init__ (resolution : str) (fps_ : Z) (enable_depth_ : bool)
    (serial_number : option Z) (cam : camera) : outcome t * list call :=
  let opened :=
    zed_open (_parse_resolution resolution) fps_
             (if enable_depth_ then ULTRA else NONE) serial_number in
  if is_success (open_status cam) then
    (Ret {| fps := fps_; enable_depth := enable_depth_; running := false;
            width := cam_width cam; height := cam_height cam;
            depth_map := if enable_depth_ then Some Mat else None;
            zmq_context := None; zmq_socket := None;
            video_writer := None |},
     [opened; py_print "ZED Camera initialized:"; py_print "  Model: ";
      py_print "  Serial: "; py_print "  Resolution: "; py_print "  Depth: "])
  else (Raise (RuntimeError "Failed to open ZED camera: "), [opened]).
End Methods.

(** [zmq_available]: the module-level [zmq] is not [None] (the import
    succeeded); [bind_ok]: the bind does not raise. *)
Definition start_zmq_server (zmq_available bind_ok : bool) (port : Z)
    : M state bool :=
  (if negb zmq_available then
     emit (py_print "Error: ZMQ not available. Install with: pip3 install pyzmq msgpack msgpack-numpy") ;;;
     ret false
   else
     emit zmq_Context ;;;
     update (set_zmq_context (Some Context)) ;;;
     emit zmq_socket_PUB ;;;
     update (set_zmq_socket (Some Socket)) ;;;
     emit (zmq_bind port) ;;;
     (if bind_ok then
        emit (py_print "ZMQ publisher started on port ") ;;; ret true
      else raise ZMQError))%py.

Definition start_video_writer (output_path : string) : M state unit :=
  (st <- get ;;
   emit (cv2_VideoWriter output_path (fps (self st))
                         (width (self st)) (height (self st))) ;;;
   update (set_video_writer (Some VideoWriter)) ;;;
   emit (py_print "Recording to: "))%py.

(** What one call of [grab_frame] meets: the status of [zed.grab], the
    BGRA data of the left view, the clock, and the depth measure. *)
Record grab : Type := {
  grab_status : ERROR_CODE;
  image_data : image;
  t_stamp : Q;
  depth_data : depth }.

Definition grab_frame (g : grab) : M state (option (gmap string pyval)) :=
  (emit zed_grab ;;;
   if negb (is_success (grab_status g)) then ret None
   else
     emit zed_retrieve_image ;;;
     let rgb_image := bgra_to_rgb (image_data g) in
     let result : gmap string pyval :=
       <["timestamp" := VFloat (t_stamp g)]>
         (<["image" := VImage rgb_image]> ∅) in
     st <- get ;;
     if enable_depth (self st) && is_set (depth_map (self st)) then
       emit zed_retrieve_measure ;;;
       ret (Some (<["depth" := VDepth (depth_data g)]> result))
     else ret (Some result))%py.

Definition publish_frame (frame : gmap string pyval) : M state unit :=
  (st <- get ;;
   match zmq_socket (self st) with
   | None => ret tt
   | Some _ =>
       ts <- getitem frame "timestamp" ;;
       im <- getitem frame "image" ;;
       let message : gmap string pyval :=
         <["image" := im]> (<["timestamp" := ts]> ∅) in
       let message :=
         match frame !! "depth" with
         | Some d => <["depth" := d]> message
         | None => message
         end in
       emit (zmq_send (packb message))
   end)%py.

(** What one pass of the streaming loop meets.  A [KeyboardInterrupt]
    is taken at the top of the pass it falls in. *)
Record tick : Type := {
  interrupt : bool;
  t_loop : Q;          (* time.time() of the duration check *)
  shot : grab;
  key : Z;             (* cv2.waitKey(1) *)
  t_fps_check : Q;     (* the three readings of the FPS report *)
  t_fps_now : Q;
  t_fps_reset : Q }.

Definition as_image (v : pyval) : M state image :=
  match v with
  | VImage a => ret a
  | _ => raise TypeError
  end.

Definition as_depth (v : pyval) : M state depth :=
  match v with
  | VDepth a => ret a
  | _ => raise TypeError
  end.

(** [duration and (now - start_time) > duration] *)
Definition duration_over (duration : option Q) (start_time now : Q) : bool :=
  match duration with
  | None => false
  | Some d => negb (Qeq_bool d 0) && negb (Qle_bool (now - start_time) d)
  end.

(** The local preview of one frame; answers whether [q] was pressed.  The
    colour mapping of the depth preview is left out: the depth map itself
    is what is logged as shown. *)
Definition preview (frame : gmap string pyval) (key_ : Z) : M state bool :=
  (im <- getitem frame "image" ;;
   a <- as_image im ;;
   emit (cv2_imshow "ZED Stream" (reverse_channels a)) ;;;
   st <- get ;;
   (if enable_depth (self st) && bool_decide (is_Some (frame !! "depth")) then
      dv <- getitem frame "depth" ;;
      d <- as_depth dv ;;
      emit (cv2_imshow_depth d)
    else ret tt) ;;;
   emit cv2_waitKey ;;;
   ret (Z.eqb (Z.land key_ 255) 113))%py.

(** The body of [while self.running:] for one pass, from the locals
    [frame_count] and [fps_time] to their new values. *)
Definition iteration (display : bool) (duration : option Q) (start_time : Q)
    (tk : tick) (frame_count : Z) (fps_time : Q) : M state (flow * Z * Q) :=
  (if interrupt tk then raise KeyboardInterrupt
   else if duration_over duration start_time (t_loop tk) then
     ret (Break, frame_count, fps_time)
   else
     grabbed <- grab_frame (shot tk) ;;
     match grabbed with
     | None => ret (Continue, frame_count, fps_time)
     | Some frame =>
         let frame_count := frame_count + 1 in
         st <- get ;;
         (when (is_set (zmq_socket (self st))) then publish_frame frame) ;;;
         (if is_set (video_writer (self st)) then
            im <- getitem frame "image" ;;
            a <- as_image im ;;
            emit (cv2_writer_write (reverse_channels a))
          else ret tt) ;;;
         quit <- (if display then preview frame (key tk) else ret false) ;;
         if (quit : bool) then ret (Break, frame_count, fps_time)
         else if Qle_bool 2 (t_fps_check tk - fps_time) then
           emit (py_print_fps frame_count (t_fps_now tk - fps_time)) ;;;
           ret (Continue, 0, t_fps_reset tk)
         else ret (Continue, frame_count, fps_time)
     end)%py.

Fixpoint loop (display : bool) (duration : option Q) (start_time : Q)
    (ticks : list tick) (frame_count : Z) (fps_time : Q) : M state unit :=
  (st <- get ;;
   if negb (running (self st)) then ret tt
   else
     match ticks with
     | [] => unfinished
     | tk :: rest =>
         r <- iteration display duration start_time tk frame_count fps_time ;;
         match r with
         | (Break, _, _) => ret tt
         | (Continue, frame_count', fps_time') =>
             loop display duration start_time rest frame_count' fps_time'
         end
     end)%py.

Definition started : string := "Streaming started. Press Ctrl+C to stop.".

(** [run]: [t_start] and [t_fps] are the two clock readings taken before
    the loop. *)
Definition run (display : bool) (duration : option Q) (t_start t_fps : Q)
    (ticks : list tick) : M state unit :=
  (update (set_running true) ;;;
   emit (py_print started) ;;;
   try_except (loop display duration t_start ticks 0 t_fps)
              is_KeyboardInterrupt
              (emit (py_print "Stopping...")) ;;;
   update (set_running false))%py.

Definition close : M state unit :=
  (st <- get ;;
   (if is_set (video_writer (self st)) then
      emit cv2_writer_release ;;; emit (py_print "Video saved")
    else ret tt) ;;;
   (when (is_set (zmq_socket (self st))) then emit zmq_socket_close) ;;;
   (when (is_set (zmq_context (self st))) then emit zmq_context_term) ;;;
   emit zed_close ;;;
   emit cv2_destroyAllWindows ;;;
   emit (py_print "ZED camera closed"))%py.

(** The command line, parsed. *)
Record args : Type := {
  arg_resolution : str;
  arg_fps : Z;
  arg_depth : bool;
  arg_serial : option Z;
  arg_port : Z;
  arg_display : bool;
  arg_save : option string;
  arg_duration : option Q }.

(** Everything outside the script that one execution of [main] meets. *)
Record world : Type := {
  unicode_lower : N -> list N;
  cam : camera;
  zmq_available : bool;
  bind_ok : bool;
  t_start : Q;
  t_fps : Q;
  ticks : list tick }.

(** [if args.save:] *)
Definition save_path (a : args) : option string :=
  match arg_save a with
  | Some path => if String.eqb path EmptyString then None else Some path
  | None => None
  end.

Definition main (a : args) (w : world) : outcome unit * list call :=
  match __init__ (unicode_lower w) (arg_resolution a) (arg_fps a)
                 (arg_depth a) (arg_serial a) (cam w) with
  | (Ret streamer, calls) =>
      let body : M state unit :=
        ((if Z.ltb 0 (arg_port a) then
            _ <- start_zmq_server (zmq_available w) (bind_ok w) (arg_port a) ;;
            ret tt
          else ret tt) ;;;
         match save_path a with
         | Some path => start_video_writer path
         | None => ret tt
         end ;;;
         run (arg_display a) (arg_duration a) (t_start w) (t_fps w) (ticks w))%py in
      match try_finally body close {| self := streamer; log := calls |} with
      | (r, st) => (r, log st)
      end
  | (Raise e, calls) => (Raise e, calls)
  | (Unfinished, calls) => (Unfinished, calls)
  end.

End ZEDStreamer.

(** * The consumer: [view_zed_cam.py] *)

Module CameraViewer.

(** The fields of a [CameraViewer] object.  [fps_history] is the
    [deque(maxlen=30)], oldest sample first. *)
Record t : Type := {
  robot_ip : string;
  port : Z;
  fps_history : list Q;
  last_frame_time : Q;
  save_frames : bool;
  frame_count : Z;
  save_dir : option string }.

Record state : Type := { self : t; log : list call }.

Definition emit (c : call) : M state unit :=
  modify (fun st => {| self := self st; log := log st ++ [c] |}).

Definition update (f : t -> t) : M state unit :=
  modify (fun st => {| self := f (self st); log := log st |}).

Definition maxlen : nat := 30.

(** [deque.append] on a deque bounded by [maxlen]: when the deque is full
    the oldest sample is dropped to make room. *)
Definition deque_append (h : list Q) (x : Q) : list Q :=
  if (length h <? maxlen)%nat then h ++ [x] else List.tl h ++ [x].

(** [CameraViewer(robot_ip, port)]; [now] is the clock reading stored in
    [last_frame_time]. *)
Definition __init__ (robot_ip_ : string) (port_ : Z) (now : Q) : state :=
  {| self := {| robot_ip := robot_ip_; port := port_;
                fps_history := []; last_frame_time := now;
                save_frames := false; frame_count := 0;
                save_dir := None |};
     log := [ zmq_Context; zmq_socket_SUB;
              zmq_setsockopt (SUBSCRIBE EmptyString);
              zmq_setsockopt (CONFLATE true);
              zmq_setsockopt (RCVHWM 3);
              zmq_setsockopt (RCVTIMEO 5000) ] |}.

Definition connect : M state unit :=
  (st <- get ;;
   emit (py_print "Connecting to camera server at tcp://") ;;;
   emit (zmq_connect (robot_ip (self st)) (port (self st))) ;;;
   emit (py_print "Connected!"))%py.

(** What [self.socket.recv()] does: it raises [zmq.Again] when the receive
    timeout expires, returns the bytes of a message, or fails otherwise. *)
Inductive received : Type :=
| Again
| Message (p : packed)
| Failed.

(** The three assignments after a message was unpacked. *)
Definition record_arrival (now : Q) (v : t) : t :=
  {| robot_ip := robot_ip v; port := port v;
     fps_history := deque_append (fps_history v) (now - last_frame_time v)%Q;
     last_frame_time := now;
     save_frames := save_frames v; frame_count := frame_count v;
     save_dir := save_dir v |}.

Definition receive_frame (r : received) (now : Q) : M state (option pyval) :=
  (emit zmq_recv ;;;
   match r with
   | Again => emit (py_print "Timeout waiting for frame") ;;; ret None
   | Message p =>
       data <- lift (unpackb p) ;;
       update (record_arrival now) ;;;
       ret (Some data)
   | Failed => raise ZMQError
   end)%py.

(** [sum(self.fps_history)], from the integer [0]. *)
Definition sum (h : list Q) : Q := List.fold_left Qplus h 0%Q.

(** [len(self.fps_history)] as a number. *)
Definition len (h : list Q) : Q := inject_Z (Z.of_nat (length h)).

(** The body of [get_fps] on the contents of the deque; dividing by a zero
    mean raises. *)
Definition fps_of (h : list Q) : outcome Q :=
  if (length h <? 2)%nat then Ret 0%Q
  else
    let mean := (sum h / len h)%Q in
    if Qeq_bool mean 0 then Raise ZeroDivisionError else Ret (1 / mean)%Q.

Definition get_fps : M state Q :=
  (st <- get ;; lift (fps_of (fps_history (self st))))%py.

Definition enable_save (dir : string) : M state unit :=
  (emit (os_makedirs dir) ;;;
   update (fun v =>
     {| robot_ip := robot_ip v; port := port v;
        fps_history := fps_history v; last_frame_time := last_frame_time v;
        save_frames := true; frame_count := frame_count v;
        save_dir := Some dir |}) ;;;
   emit (py_print "Saving frames to: "))%py.

(** [(time.time() - timestamps[camera_name]) * 1000] *)
Definition latency (now capturedAt : Q) : Q := (now - capturedAt)%Q.
Definition latency_ms (now capturedAt : Q) : Q := (latency now capturedAt * 1000)%Q.

(** [data.get(key, {})].  An array packed by [msgpack_numpy] reads back,
    without its hook, as a dictionary describing the array, which has none
    of the keys asked for here. *)
Definition dict_get (data : pyval) (key : string) : M state pyval :=
  match data with
  | VDict d => ret (default (VDict ∅) (d !! key))
  | VImage _ | VDepth _ => ret (VDict ∅)
  | VNone | VFloat _ | VStr _ => raise AttributeError
  end.

(** [images.items()], for a truthy [images]; the entries of an array's
    description are no strings, and decoding the first one raises. *)
Definition items (images : pyval) : M state (list (string * pyval)) :=
  match images with
  | VDict d => ret (map_to_list d)
  | VImage _ | VDepth _ => raise TypeError
  | VNone | VFloat _ | VStr _ => raise AttributeError
  end.

(** [timestamps[camera_name]] guarded by [camera_name in timestamps]. *)
Definition timestamp_of (timestamps : pyval) (camera_name : string)
    : M state (option pyval) :=
  match timestamps with
  | VDict d => ret (d !! camera_name)
  | VImage _ | VDepth _ => ret None
  | VStr s =>
      if is_set (String.index 0 camera_name s) then raise TypeError
      else ret None
  | VNone | VFloat _ => raise TypeError
  end.

Definition label_of (camera_name : string) : string :=
  if String.eqb camera_name "ego_view" then camera_name ++ " (ZED)"
  else if String.eqb camera_name "head" then camera_name ++ " (RealSense)"
  else camera_name.

(** What one pass of the viewing loop meets. *)
Record tick : Type := {
  interrupt : bool;
  arrival : received;
  t_recv : Q;                 (* time.time() in receive_frame *)
  t_latency : string -> Q;    (* time.time() when a camera's latency is taken *)
  key : Z }.                  (* cv2.waitKey(1) *)

Section Decoding.
(** [base64.b64decode] ([None]: it raises) and [cv2.imdecode] on the
    decoded bytes ([None]: no image could be decoded). *)
Variable b64decode : string -> option (list Z).
Variable imdecode : list Z -> option image.

Definition decode_image (image_b64 : pyval) : M state (option image) :=
  match image_b64 with
  | VStr s =>
      match b64decode s with
      | Some color_data => ret (imdecode color_data)
      | None => raise binascii_Error
      end
  | _ => raise TypeError
  end.

(** The body of [for camera_name, image_b64 in images.items():].  The
    text drawn on the image is logged beside the image shown. *)
Definition show_camera (fps : Q) (timestamps : pyval) (tk : tick)
    (entry : string * pyval) : M state unit :=
  (let camera_name := fst entry in
   decoded <- decode_image (snd entry) ;;
   match decoded with
   | None => raise cv2_error
   | Some rgb =>
       let image_ := reverse_channels rgb in
       emit (cv2_putText (label_of camera_name)) ;;;
       emit (cv2_putText_fps fps) ;;;
       stamp <- timestamp_of timestamps camera_name ;;
       match stamp with
       | None => ret tt
       | Some (VFloat capturedAt) =>
           emit (cv2_putText_latency
                   (latency_ms (t_latency tk camera_name) capturedAt))
       | Some _ => raise TypeError
       end ;;;
       emit (cv2_imshow ("G1 Camera - " ++ camera_name) image_) ;;;
       st <- get ;;
       match save_frames (self st), save_dir (self st) with
       | true, Some dir =>
           if String.eqb dir EmptyString then ret tt
           else emit (cv2_imwrite dir camera_name (frame_count (self st)) image_)
       | _, _ => ret tt
       end
   end)%py.

Definition bump_frame_count (v : t) : t :=
  {| robot_ip := robot_ip v; port := port v;
     fps_history := fps_history v; last_frame_time := last_frame_time v;
     save_frames := save_frames v; frame_count := frame_count v + 1;
     save_dir := save_dir v |}.

Definition toggle_save (v : t) : t :=
  {| robot_ip := robot_ip v; port := port v;
     fps_history := fps_history v; last_frame_time := last_frame_time v;
     save_frames := negb (save_frames v); frame_count := frame_count v;
     save_dir := save_dir v |}.

(** The body of [while True:] for one pass. *)
Definition iteration (tk : tick) : M state flow :=
  (if interrupt tk then raise KeyboardInterrupt
   else
     received_ <- receive_frame (arrival tk) (t_recv tk) ;;
     match received_ with
     | None => ret Continue
     | Some data =>
         images <- dict_get data "images" ;;
         timestamps <- dict_get data "timestamps" ;;
         if negb (truthy images) then
           emit (py_print "No images in frame") ;;; ret Continue
         else
           fps <- get_fps ;;
           cameras <- items images ;;
           for_each cameras (show_camera fps timestamps tk) ;;;
           update bump_frame_count ;;;
           emit cv2_waitKey ;;;
           let pressed := Z.land (key tk) 255 in
           if Z.eqb pressed 113 || Z.eqb pressed 27 then ret Break
           else if Z.eqb pressed 115 then
             update toggle_save ;;;
             emit (py_print "Frame saving: ") ;;;
             ret Continue
           else ret Continue
     end)%py.

Fixpoint loop (ticks : list tick) : M state unit :=
  match ticks with
  | [] => unfinished
  | tk :: rest =>
      bind (iteration tk)
           (fun f => match f with Break => ret tt | Continue => loop rest end)
  end.

Definition run (ticks : list tick) : M state unit :=
  (emit (py_print "Press 'q' to quit, 's' to toggle frame saving") ;;;
   emit (py_print "Camera feeds:") ;;;
   emit (py_print "  - ego_view: ZED camera") ;;;
   emit (py_print "  - head: RealSense camera") ;;;
   emit (py_print EmptyString) ;;;
   try_except (loop ticks) is_KeyboardInterrupt
              (emit (py_print "Stopped by user")))%py.

Definition close : M state unit :=
  (emit zmq_socket_close ;;;
   emit zmq_context_term ;;;
   emit cv2_destroyAllWindows ;;;
   emit (py_print "Viewer closed"))%py.

(** The command line, parsed. *)
Record args : Type := {
  arg_ip : string;
  arg_port : Z;
  arg_save : bool;
  arg_save_dir : string }.

Definition main (a : args) (t_init : Q) (ticks : list tick)
    : outcome unit * list call :=
  let body : M state unit :=
    (connect ;;;
     (when (arg_save a) then enable_save (arg_save_dir a)) ;;;
     run ticks)%py in
  match try_finally body close (__init__ (arg_ip a) (arg_port a) t_init) with
  | (r, st) => (r, log st)
  end.
End Decoding.

End CameraViewer.

(** * Properties *)

(** ** Resolution parsing *)

(** The table of [_parse_resolution], as written in the source. *)
Definition resolution_table : list (str * RESOLUTION) :=
  [ (of_ascii "2k", HD2K); (of_ascii "1080p", HD1080);
    (of_ascii "720p", HD720); (of_ascii "vga", VGA) ].

(** [s] spells [k] up to the case of its ASCII letters. *)
Definition ascii_caseless (s k : str) : Prop :=
  Forall2 (fun c d => c = d ∨ ((65 <= c)%N ∧ (c <= 90)%N ∧ d = (c + 32)%N)) s k.

(** A key of lower-case ASCII letters and digits. *)
Definition plain_key (k : str) : Prop :=
  Forall (fun d => (d < 128)%N ∧ ¬ ((65 <= d)%N ∧ (d <= 90)%N)) k.

Lemma resolutions_lookup k r :
  (k, r) ∈ resolution_table → ZEDStreamer.resolutions !! k = Some r.
Proof.
  unfold resolution_table. rewrite !elem_of_cons, elem_of_nil.
  intros [H|[H|[H|[H|[]]]]]; injection H as -> ->; vm_compute; reflexivity.
Qed.

Lemma resolutions_lookup_None k :
  (∀ r, (k, r) ∉ resolution_table) → ZEDStreamer.resolutions !! k = None.
Proof.
  intros H. unfold ZEDStreamer.resolutions.
  rewrite !lookup_insert_ne, lookup_empty; [reflexivity|..];
    intros <-; eapply H; unfold resolution_table;
    rewrite !elem_of_cons; eauto 6.
Qed.

Lemma lower_caseless ul s k :
  plain_key k → ascii_caseless s k → lower ul s = k.
Proof.
  intros Hk Hs. revert Hk. induction Hs as [|c d s k Hcd Hs IH]; intros Hk.
  - reflexivity.
  - apply Forall_cons in Hk as [[Hd Hnd] Hk]. unfold lower in *. cbn [flat_map].
    rewrite (IH Hk). unfold lower_cp.
    destruct Hcd as [->|(H1 & H2 & ->)].
    + destruct (65 <=? d)%N eqn:E1, (d <=? 90)%N eqn:E2; cbn [andb];
        try (apply N.leb_le in E1; apply N.leb_le in E2; tauto);
        (destruct (d <? 128)%N eqn:E3; [reflexivity | apply N.ltb_ge in E3; lia]).
    + apply N.leb_le in H1, H2. rewrite H1, H2. reflexivity.
Qed.

Lemma resolution_keys_plain k r : (k, r) ∈ resolution_table → plain_key k.
Proof.
  unfold resolution_table. rewrite !elem_of_cons, elem_of_nil.
  intros [H|[H|[H|[H|[]]]]]; injection H as -> ->; unfold plain_key;
    repeat constructor; cbn; lia.
Qed.

Example parse_VGA_mixed ul : ZEDStreamer._parse_resolution ul (of_ascii "VgA") = VGA.
Proof. reflexivity. Qed.

Example parse_4k ul : ZEDStreamer._parse_resolution ul (of_ascii "4k") = HD720.
Proof. reflexivity. Qed.

(** C10. [_parse_resolution] is a total function of the string with no
    failing case: its value is one of the four resolutions; a string whose
    lower-cased form is ['vga'], ['720p'], ['1080p'] or ['2k'] (in particular
    any spelling of these in other ASCII case) gets the resolution of that
    name; every other string gets the 720p resolution. *)
Theorem parse_resolution_total_default (ul : N → list N) (resolution : str) :
  ZEDStreamer._parse_resolution ul resolution ∈ [HD2K; HD1080; HD720; VGA] ∧
  (∀ k r, (k, r) ∈ resolution_table →
     lower ul resolution = k → ZEDStreamer._parse_resolution ul resolution = r) ∧
  (∀ k r, (k, r) ∈ resolution_table →
     ascii_caseless resolution k → ZEDStreamer._parse_resolution ul resolution = r) ∧
  ((∀ r, (lower ul resolution, r) ∉ resolution_table) →
     ZEDStreamer._parse_resolution ul resolution = HD720).
Proof.
  assert (Hkey : ∀ k r, (k, r) ∈ resolution_table → lower ul resolution = k →
                        ZEDStreamer._parse_resolution ul resolution = r).
  { intros k r Hin Hk. unfold ZEDStreamer._parse_resolution.
    rewrite Hk, (resolutions_lookup _ _ Hin). reflexivity. }
  assert (Hdef : (∀ r, (lower ul resolution, r) ∉ resolution_table) →
                 ZEDStreamer._parse_resolution ul resolution = HD720).
  { intros Hno. unfold ZEDStreamer._parse_resolution.
    rewrite (resolutions_lookup_None _ Hno). reflexivity. }
  split; [|split; [exact Hkey|split; [|exact Hdef]]].
  - unfold ZEDStreamer._parse_resolution.
    destruct (ZEDStreamer.resolutions !! lower ul resolution) as [r|] eqn:E; cbn.
    + destruct r; rewrite !elem_of_cons; auto.
    + rewrite !elem_of_cons; auto.
  - intros k r Hin Hs. apply (Hkey k r Hin).
    apply lower_caseless; [exact (resolution_keys_plain k r Hin) | exact Hs].
Qed.

Lemma parse_resolution_total_default_witness :
  ZEDStreamer._parse_resolution (fun c => [c]) (of_ascii "1080P") = HD1080 ∧
  ZEDStreamer._parse_resolution (fun c => [c]) (of_ascii "4k") = HD720.
Proof.
  split.
  - apply (proj1 (proj2 (proj2 (parse_resolution_total_default (fun c => [c]) (of_ascii "1080P"))))
             (of_ascii "1080p") HD1080).
    + unfold resolution_table. rewrite !elem_of_cons. auto.
    + unfold ascii_caseless. cbn.
      repeat (constructor; [first [left; reflexivity | right; repeat split; lia] |]).
      constructor.
  - apply (proj2 (proj2 (proj2 (parse_resolution_total_default (fun c => [c]) (of_ascii "4k"))))).
    intros r. unfold resolution_table. rewrite !elem_of_cons, elem_of_nil.
    intros [H|[H|[H|[H|[]]]]]; discriminate H.
Defined.

(** ** Reasoning about the producer's methods

    [evolves Q F st st']: from [st] to [st'] the log grew by calls that all
    satisfy [Q], and the object changed within [F]. *)

Open Scope list_scope.

Section Evolution.
Import ZEDStreamer.

Variable Q : call → Prop.
Variable F : ZEDStreamer.t → ZEDStreamer.t → Prop.
Context {F_preorder : PreOrder F}.

Definition evolves (st st' : state) : Prop :=
  F (self st) (self st') ∧
  ∃ extra, log st' = log st ++ extra ∧ Forall Q extra.

Definition keeps {A} (m : M state A) : Prop := ∀ st, evolves st (snd (m st)).

Lemma evolves_refl st : evolves st st.
Proof. split; [reflexivity|]. exists []. rewrite app_nil_r. auto. Qed.

Lemma evolves_trans st1 st2 st3 :
  evolves st1 st2 → evolves st2 st3 → evolves st1 st3.
Proof.
  intros [HF1 (e1 & L1 & Q1)] [HF2 (e2 & L2 & Q2)]. split; [etransitivity; eassumption|].
  exists (e1 ++ e2). rewrite L2, L1, app_assoc. split; [reflexivity|].
  apply Forall_app; auto.
Qed.

Lemma keeps_ret {A} (a : A) : keeps (ret a).
Proof. intros st. apply evolves_refl. Qed.

Lemma keeps_raise {A} e : keeps (@raise state A e).
Proof. intros st. apply evolves_refl. Qed.

Lemma keeps_unfinished {A} : keeps (@unfinished state A).
Proof. intros st. apply evolves_refl. Qed.

Lemma keeps_get : keeps (@get state).
Proof. intros st. apply evolves_refl. Qed.

Lemma keeps_lift {A} (r : outcome A) : keeps (@lift state A r).
Proof. intros st. apply evolves_refl. Qed.

Lemma keeps_bind {A B} (m : M state A) (k : A → M state B) :
  keeps m → (∀ a, keeps (k a)) → keeps (bind m k).
Proof.
  intros Hm Hk st. unfold bind. specialize (Hm st).
  destruct (m st) as [[a|e|] st1]; cbn in *; try exact Hm.
  eapply evolves_trans; [exact Hm | apply Hk].
Qed.

Lemma keeps_emit c : Q c → keeps (emit c).
Proof.
  intros Hc st. split; [reflexivity|]. exists [c]. cbn. auto.
Qed.

Lemma keeps_update f : (∀ s, F s (f s)) → keeps (update f).
Proof.
  intros Hf st. split; [apply Hf|]. exists []. cbn. rewrite app_nil_r. auto.
Qed.

Lemma keeps_try_except {A} (body handler : M state A) catches :
  keeps body → keeps handler → keeps (try_except body catches handler).
Proof.
  intros Hb Hh st. unfold try_except. specialize (Hb st).
  destruct (body st) as [[a|e|] st1]; cbn in *; try exact Hb.
  destruct (catches e); cbn; [|exact Hb].
  eapply evolves_trans; [exact Hb | apply Hh].
Qed.

Lemma keeps_getitem d key_ : keeps (getitem d key_).
Proof. unfold getitem. destruct (d !! key_); [apply keeps_ret|apply keeps_raise]. Qed.

Lemma keeps_as_image v : keeps (as_image v).
Proof. destruct v; first [apply keeps_ret | apply keeps_raise]. Qed.

Lemma keeps_as_depth v : keeps (as_depth v).
Proof. destruct v; first [apply keeps_ret | apply keeps_raise]. Qed.
End Evolution.

(** Breaks a monadic body into its calls, leaving the conditions on the
    emitted calls and on the field updates. *)
Ltac keeps_side :=
  lazymatch goal with
  | |- PreOrder _ => exact _
  | _ => idtac
  end.

Ltac keeps_step :=
  lazymatch goal with
  | |- keeps _ _ (bind _ _) => apply keeps_bind; keeps_side; [ | intros ]
  | |- keeps _ _ (ret _) => apply keeps_ret; keeps_side
  | |- keeps _ _ (raise _) => apply keeps_raise; keeps_side
  | |- keeps _ _ unfinished => apply keeps_unfinished; keeps_side
  | |- keeps _ _ get => apply keeps_get; keeps_side
  | |- keeps _ _ (lift _) => apply keeps_lift; keeps_side
  | |- keeps _ _ (getitem _ _) => apply keeps_getitem; keeps_side
  | |- keeps _ _ (ZEDStreamer.as_image _) => apply keeps_as_image; keeps_side
  | |- keeps _ _ (ZEDStreamer.as_depth _) => apply keeps_as_depth; keeps_side
  | |- keeps _ _ (ZEDStreamer.emit _) => apply keeps_emit; keeps_side
  | |- keeps _ _ (ZEDStreamer.update _) => apply keeps_update; keeps_side; intros
  | |- keeps _ _ (try_except _ _ _) => apply keeps_try_except; keeps_side
  | |- keeps _ _ (if _ then _ else _) => case_match
  | |- keeps _ _ (match _ with _ => _ end) => case_match
  end.

(** The fields fixed by the constructor. *)
Definition same_config (s s' : ZEDStreamer.t) : Prop :=
  ZEDStreamer.enable_depth s' = ZEDStreamer.enable_depth s ∧
  ZEDStreamer.depth_map s' = ZEDStreamer.depth_map s.

(** The handles on the transport and on the output file. *)
Definition same_handles (s s' : ZEDStreamer.t) : Prop :=
  ZEDStreamer.zmq_context s' = ZEDStreamer.zmq_context s ∧
  ZEDStreamer.zmq_socket s' = ZEDStreamer.zmq_socket s ∧
  ZEDStreamer.video_writer s' = ZEDStreamer.video_writer s.

Definition same_setup (s s' : ZEDStreamer.t) : Prop :=
  same_config s s' ∧ same_handles s s'.

#[local] Instance same_config_preorder : PreOrder same_config.
Proof.
  split; [intros s; split; reflexivity|].
  intros s1 s2 s3 [A1 A2] [B1 B2]. split; congruence.
Qed.

#[local] Instance same_setup_preorder : PreOrder same_setup.
Proof.
  split; [intros s; repeat split; reflexivity|].
  intros s1 s2 s3 [[A1 A2] (A3 & A4 & A5)] [[B1 B2] (B3 & B4 & B5)].
  repeat split; congruence.
Qed.

(** The calls that create or release a resource. *)
Definition lifecycle (c : call) : bool :=
  match c with
  | zed_open _ _ _ _ | zed_close
  | zmq_Context | zmq_context_term
  | zmq_socket_PUB | zmq_socket_SUB | zmq_socket_close
  | cv2_VideoWriter _ _ _ _ | cv2_writer_release => true
  | _ => false
  end.

Definition quiet (c : call) : Prop := lifecycle c = false.

Definition any_call (c : call) : Prop := True.

Section ProducerMethods.
Import ZEDStreamer.

Lemma grab_frame_quiet g : keeps quiet same_setup (grab_frame g).
Proof.
  unfold grab_frame.
  repeat keeps_step; first [reflexivity | repeat split; reflexivity].
Qed.

Lemma publish_frame_quiet frame : keeps quiet same_setup (publish_frame frame).
Proof.
  unfold publish_frame.
  repeat keeps_step; first [reflexivity | repeat split; reflexivity].
Qed.

Lemma preview_quiet frame k : keeps quiet same_setup (preview frame k).
Proof.
  unfold preview.
  repeat keeps_step; first [reflexivity | repeat split; reflexivity].
Qed.

Lemma iteration_quiet display duration start tk fc ft :
  keeps quiet same_setup (iteration display duration start tk fc ft).
Proof.
  unfold iteration.
  repeat first [ apply grab_frame_quiet | apply publish_frame_quiet
               | apply preview_quiet | keeps_step ];
    first [reflexivity | repeat split; reflexivity].
Qed.

Lemma loop_quiet display duration start ticks_ :
  ∀ fc ft, keeps quiet same_setup (loop display duration start ticks_ fc ft).
Proof.
  induction ticks_ as [|tk rest IH]; intros fc ft; cbn [loop].
  - repeat keeps_step.
  - apply keeps_bind; keeps_side; [keeps_step | intros st].
    destruct (negb (running (self st))); [keeps_step|].
    apply keeps_bind; keeps_side; [apply iteration_quiet|].
    intros [[[] fc'] ft']; [apply IH | keeps_step].
Qed.
End ProducerMethods.

Section ProducerSetup.
Import ZEDStreamer.

Lemma run_quiet display duration t0 t1 ticks_ :
  keeps quiet same_setup (run display duration t0 t1 ticks_).
Proof.
  unfold run.
  repeat first [ apply loop_quiet | keeps_step ];
    first [reflexivity | repeat split; reflexivity].
Qed.

Lemma start_zmq_server_config avail ok port_ :
  keeps any_call same_config (start_zmq_server avail ok port_).
Proof.
  unfold start_zmq_server.
  repeat keeps_step; first [exact I | split; reflexivity].
Qed.

Lemma start_video_writer_config path :
  keeps any_call same_config (start_video_writer path).
Proof.
  unfold start_video_writer.
  repeat keeps_step; first [exact I | split; reflexivity].
Qed.

Lemma close_setup : keeps any_call same_setup close.
Proof.
  unfold close. repeat keeps_step; exact I.
Qed.

(** The constructor couples the depth container to the depth flag. *)
Lemma init_depth_map ul resolution fps_ ed serial cam_ s calls :
  __init__ ul resolution fps_ ed serial cam_ = (Ret s, calls) →
  enable_depth s = ed ∧ is_set (depth_map s) = ed.
Proof.
  unfold __init__. destruct (is_success (open_status cam_)); [|discriminate].
  intros [= <- _]. cbn. destruct ed; auto.
Qed.

(** [grab_frame] returns, whatever the camera answers. *)
Lemma grab_frame_returns g st :
  ∃ o st', grab_frame g st = (Ret o, st') ∧
           (o = None ↔ is_success (grab_status g) = false).
Proof.
  unfold grab_frame, bind, emit, modify, get, ret.
  destruct (is_success (grab_status g)); cbn.
  - destruct (enable_depth (self st) && is_set (depth_map (self st)));
      cbn; eexists _, _; (split; [reflexivity|]); split; discriminate.
  - eexists _, _. split; [reflexivity|]. split; reflexivity.
Qed.

(** The keys of a grabbed frame, from the fields of the object. *)
Lemma grab_frame_keys g st r st' :
  grab_frame g st = (Ret (Some r), st') →
  dom r = {["image"; "timestamp"]} ∪
          (if enable_depth (self st) && is_set (depth_map (self st))
           then {["depth"]} else ∅).
Proof.
  unfold grab_frame, bind, emit, modify, get, ret.
  destruct (is_success (grab_status g)); cbn; [|discriminate].
  destruct (enable_depth (self st) && is_set (depth_map (self st)));
    cbn; intros [= <- _]; rewrite !dom_insert_L, dom_empty_L; set_solver.
Qed.
End ProducerSetup.

(** C9. Every successful result of [grab_frame] on a streamer built by the
    constructor (and then used through its methods, which leave the depth
    settings alone) is a dictionary holding the keys ['image'] and
    ['timestamp'], and holding ['depth'] exactly when the streamer was
    constructed with [enable_depth] true. *)
Theorem grab_frame_result_keys
    (ul : N → list N) (resolution : str) (fps_ : Z) (ed : bool)
    (serial : option Z) (cam_ : ZEDStreamer.camera)
    (s : ZEDStreamer.t) (calls : list call)
    (st st' : ZEDStreamer.state) (g : ZEDStreamer.grab)
    (r : gmap string pyval) :
  ZEDStreamer.__init__ ul resolution fps_ ed serial cam_ = (Ret s, calls) →
  same_config s (ZEDStreamer.self st) →
  ZEDStreamer.grab_frame g st = (Ret (Some r), st') →
  "image" ∈ dom r ∧ "timestamp" ∈ dom r ∧ ("depth" ∈ dom r ↔ ed = true).
Proof.
  intros Hinit [Hed Hmap] Hgrab.
  apply init_depth_map in Hinit as [H1 H2].
  apply grab_frame_keys in Hgrab. rewrite Hgrab, Hed, Hmap, H1, H2.
  clear. destruct ed; cbn;
    rewrite !elem_of_union, !elem_of_singleton, ?elem_of_empty;
    intuition discriminate.
Qed.

Definition sample_camera : ZEDStreamer.camera :=
  {| ZEDStreamer.open_status := SUCCESS;
     ZEDStreamer.cam_width := 1280; ZEDStreamer.cam_height := 720 |}.

Definition sample_streamer (ed : bool) : ZEDStreamer.t :=
  {| ZEDStreamer.fps := 30; ZEDStreamer.enable_depth := ed;
     ZEDStreamer.running := false;
     ZEDStreamer.width := 1280; ZEDStreamer.height := 720;
     ZEDStreamer.depth_map := if ed then Some ZEDStreamer.Mat else None;
     ZEDStreamer.zmq_context := None; ZEDStreamer.zmq_socket := None;
     ZEDStreamer.video_writer := None |}.

(** One BGRA pixel, one depth value, taken at time 5. *)
Definition sample_grab : ZEDStreamer.grab :=
  {| ZEDStreamer.grab_status := SUCCESS;
     ZEDStreamer.image_data := [[[10; 20; 30; 255]]];
     ZEDStreamer.t_stamp := 5%Q;
     ZEDStreamer.depth_data := [[1065353216]] |}.

Definition sample_frame (ed : bool) : gmap string pyval :=
  let base : gmap string pyval :=
    <["timestamp" := VFloat 5%Q]> (<["image" := VImage [[[30; 20; 10]]]]> ∅) in
  if ed then <["depth" := VDepth [[1065353216]]]> base else base.

Lemma sample_init ed :
  ZEDStreamer.__init__ (fun c => [c]) (of_ascii "720p") 30 ed None sample_camera
  = (Ret (sample_streamer ed),
     [zed_open HD720 30 (if ed then ULTRA else NONE) None;
      py_print "ZED Camera initialized:"; py_print "  Model: ";
      py_print "  Serial: "; py_print "  Resolution: "; py_print "  Depth: "]).
Proof. destruct ed; reflexivity. Qed.

Lemma sample_grab_frame ed l :
  ZEDStreamer.grab_frame sample_grab
    {| ZEDStreamer.self := sample_streamer ed; ZEDStreamer.log := l |}
  = (Ret (Some (sample_frame ed)),
     {| ZEDStreamer.self := sample_streamer ed;
        ZEDStreamer.log :=
          if ed then (l ++ [zed_grab]) ++ [zed_retrieve_image] ++ [zed_retrieve_measure]
          else (l ++ [zed_grab]) ++ [zed_retrieve_image] |}).
Proof. destruct ed; cbn; rewrite <- ?app_assoc; reflexivity. Qed.

Lemma grab_frame_result_keys_witness :
  "image" ∈ dom (sample_frame true) ∧ "timestamp" ∈ dom (sample_frame true) ∧
  ("depth" ∈ dom (sample_frame true) ↔ true = true).
Proof.
  eapply (grab_frame_result_keys (fun c => [c]) (of_ascii "720p") 30 true None
            sample_camera (sample_streamer true) _
            {| ZEDStreamer.self := sample_streamer true; ZEDStreamer.log := [] |}
            _ sample_grab).
  - exact (sample_init true).
  - split; reflexivity.
  - exact (sample_grab_frame true []).
Defined.

(** ** Publishing *)

(** C5. [publish_frame] with no transport bound returns without raising
    and leaves the state, log included, as it was.  With a transport bound,
    and a frame holding a timestamp and an image, it returns after exactly
    one call to the transport, the send of one packed message; that message
    holds the frame's timestamp and image, holds the frame's depth exactly
    when the frame has one, and holds nothing else. *)
Theorem publish_frame_contract (frame : gmap string pyval) (st : ZEDStreamer.state) :
  (ZEDStreamer.zmq_socket (ZEDStreamer.self st) = None →
     ZEDStreamer.publish_frame frame st = (Ret tt, st)) ∧
  (∀ ts im,
     is_Some (ZEDStreamer.zmq_socket (ZEDStreamer.self st)) →
     frame !! "timestamp" = Some ts →
     frame !! "image" = Some im →
     ∃ message : gmap string pyval,
       ZEDStreamer.publish_frame frame st
       = (Ret tt, {| ZEDStreamer.self := ZEDStreamer.self st;
                     ZEDStreamer.log :=
                       ZEDStreamer.log st ++ [zmq_send (packb message)] |}) ∧
       message !! "timestamp" = Some ts ∧
       message !! "image" = Some im ∧
       message !! "depth" = frame !! "depth" ∧
       dom message ⊆ {["timestamp"; "image"; "depth"]}).
Proof.
  split.
  - intros Hnone. unfold ZEDStreamer.publish_frame, bind, get. cbn.
    rewrite Hnone. reflexivity.
  - intros ts im [k Hk] Hts Him.
    unfold ZEDStreamer.publish_frame, bind, get, getitem. cbn.
    rewrite Hk, Hts. cbn. rewrite Him. cbn.
    destruct (frame !! "depth") as [d|] eqn:Hd;
      (eexists; split; [reflexivity|]);
      (split; [|split; [|split]]);
      try (simplify_map_eq; reflexivity);
      rewrite !dom_insert_L, dom_empty_L;
      intros x; rewrite !elem_of_union, !elem_of_singleton, elem_of_empty; tauto.
Qed.

Definition bound_streamer (ed : bool) : ZEDStreamer.t :=
  ZEDStreamer.set_zmq_socket (Some ZEDStreamer.Socket)
    (ZEDStreamer.set_zmq_context (Some ZEDStreamer.Context) (sample_streamer ed)).

Lemma publish_frame_contract_witness :
  ∃ message : gmap string pyval,
    ZEDStreamer.publish_frame (sample_frame true)
      {| ZEDStreamer.self := bound_streamer true; ZEDStreamer.log := [] |}
    = (Ret tt, {| ZEDStreamer.self := bound_streamer true;
                  ZEDStreamer.log := [] ++ [zmq_send (packb message)] |}) ∧
    message !! "timestamp" = Some (VFloat 5%Q) ∧
    message !! "image" = Some (VImage [[[30; 20; 10]]]) ∧
    message !! "depth" = sample_frame true !! "depth" ∧
    dom message ⊆ {["timestamp"; "image"; "depth"]}.
Proof.
  apply (proj2 (publish_frame_contract (sample_frame true)
                  {| ZEDStreamer.self := bound_streamer true; ZEDStreamer.log := [] |})).
  - eexists. reflexivity.
  - reflexivity.
  - reflexivity.
Defined.

(** ** Receiving *)

Definition count_calls (p : call → bool) (l : list call) : nat :=
  length (List.filter p l).

Lemma count_calls_app p l1 l2 :
  count_calls p (l1 ++ l2) = (count_calls p l1 + count_calls p l2)%nat.
Proof. unfold count_calls. rewrite List.filter_app, length_app. reflexivity. Qed.

Definition is_recv (c : call) : bool :=
  match c with zmq_recv => true | _ => false end.

(** C4. When the receive times out ([recv] raises [zmq.Again]),
    [receive_frame] returns [None] instead of raising, after one receive
    attempt and the warning, with the viewer's fields untouched; and whatever
    the socket answers, one call of [receive_frame] makes exactly one receive
    attempt.  The timeout is the 5000 ms set by the constructor. *)
Theorem receive_frame_timeout (now : Q) (st : CameraViewer.state) :
  CameraViewer.receive_frame CameraViewer.Again now st
  = (Ret None,
     {| CameraViewer.self := CameraViewer.self st;
        CameraViewer.log :=
          CameraViewer.log st ++
            [zmq_recv; py_print "Timeout waiting for frame"] |}) ∧
  (∀ r, count_calls is_recv (CameraViewer.log (CameraViewer.receive_frame r now st).2)
        = S (count_calls is_recv (CameraViewer.log st))) ∧
  (∀ ip port_ t0,
     zmq_setsockopt (RCVTIMEO 5000) ∈ CameraViewer.log (CameraViewer.__init__ ip port_ t0)).
Proof.
  split; [|split].
  - unfold CameraViewer.receive_frame, bind, CameraViewer.emit, modify, ret. cbn.
    rewrite <- app_assoc. reflexivity.
  - intros r.
    unfold CameraViewer.receive_frame, bind, CameraViewer.emit,
      CameraViewer.update, modify, ret, raise, lift.
    destruct r as [|[v|]|]; unfold count_calls; cbn;
      rewrite !List.filter_app, !length_app; cbn; lia.
  - intros ip port_ t0. cbn. rewrite !elem_of_cons. auto 10.
Qed.

(** ** Latency *)



(** ** The FPS estimate *)

Section Fps.
Import CameraViewer.

Lemma deque_append_length h x :
  (length h ≤ maxlen)%nat → (length (deque_append h x) ≤ maxlen)%nat.
Proof.
  unfold deque_append, maxlen. intros H.
  destruct (Nat.ltb_spec (length h) 30); rewrite length_app; cbn.
  - lia.
  - destruct h; cbn in *; lia.
Qed.










Lemma fps_of_zero_mean h :
  (2 ≤ length h)%nat → (sum h == 0)%Q → fps_of h = Raise ZeroDivisionError.
Proof.
  intros H Hsum. unfold fps_of.
  destruct (Nat.ltb_spec (length h) 2); [lia|].
  destruct (Qeq_bool (sum h / len h) 0) eqn:E; [reflexivity|].
  apply Qeq_bool_neq in E. exfalso. apply E. rewrite Hsum.
  unfold Qdiv. ring.
Qed.

End Fps.

Section RegularArrivals.
Import CameraViewer.





Definition with_history (h : list Q) : CameraViewer.state :=
  {| self := {| robot_ip := "192.168.123.164"; port := 5555;
                fps_history := h; last_frame_time := 0%Q;
                save_frames := false; frame_count := 0; save_dir := None |};
     log := [] |}.
End RegularArrivals.




(** ** Start-up, the streaming loop and shutdown of the producer *)

Definition is_zed_open (c : call) : bool :=
  match c with zed_open _ _ _ _ => true | _ => false end.
Definition is_zed_close (c : call) : bool :=
  match c with zed_close => true | _ => false end.
Definition is_socket_open (c : call) : bool :=
  match c with zmq_socket_PUB => true | _ => false end.
Definition is_socket_close (c : call) : bool :=
  match c with zmq_socket_close => true | _ => false end.
Definition is_context_open (c : call) : bool :=
  match c with zmq_Context => true | _ => false end.
Definition is_context_term (c : call) : bool :=
  match c with zmq_context_term => true | _ => false end.
Definition is_writer_open (c : call) : bool :=
  match c with cv2_VideoWriter _ _ _ _ => true | _ => false end.
Definition is_writer_release (c : call) : bool :=
  match c with cv2_writer_release => true | _ => false end.

Lemma count_calls_quiet p extra :
  (∀ c, p c = true → lifecycle c = true) →
  Forall quiet extra → count_calls p extra = 0%nat.
Proof.
  intros Hp Hq. unfold count_calls.
  induction Hq as [|c extra Hc Hq IH]; [reflexivity|]. cbn.
  destruct (p c) eqn:E; [|exact IH].
  apply Hp in E. unfold quiet in Hc. congruence.
Qed.

Section Shutdown.
Import ZEDStreamer.

(** The calls one [close] makes, from the handles the object holds. *)
Definition close_calls (s : ZEDStreamer.t) : list call :=
  (if is_set (video_writer s) then [cv2_writer_release; py_print "Video saved"] else []) ++
  (if is_set (zmq_socket s) then [zmq_socket_close] else []) ++
  (if is_set (zmq_context s) then [zmq_context_term] else []) ++
  [zed_close; cv2_destroyAllWindows; py_print "ZED camera closed"].

(** [close] always returns; it changes no field and appends its calls. *)
Lemma close_spec st :
  close st = (Ret tt, {| self := self st; log := log st ++ close_calls (self st) |}).
Proof.
  unfold close, close_calls, bind, get, emit, modify, ret.
  destruct st as [s l]. cbn.
  destruct (is_set (video_writer s)), (is_set (zmq_socket s)),
    (is_set (zmq_context s)); cbn; rewrite <- ?app_assoc; reflexivity.
Qed.

Definition one_if (b : bool) : nat := if b then 1%nat else 0%nat.

(** Before [close]: every creation in the log has its handle stored in the
    object, and nothing has been released. *)
Definition tracked (st : state) : Prop :=
  count_calls is_zed_open (log st) = 1%nat ∧
  count_calls is_socket_open (log st) = one_if (is_set (zmq_socket (self st))) ∧
  count_calls is_context_open (log st) = one_if (is_set (zmq_context (self st))) ∧
  count_calls is_writer_open (log st) = one_if (is_set (video_writer (self st))) ∧
  count_calls is_zed_close (log st) = 0%nat ∧
  count_calls is_socket_close (log st) = 0%nat ∧
  count_calls is_context_term (log st) = 0%nat ∧
  count_calls is_writer_release (log st) = 0%nat.

Lemma tracked_evolves st st' :
  tracked st → evolves quiet same_setup st st' → tracked st'.
Proof.
  intros (T1 & T2 & T3 & T4 & T5 & T6 & T7 & T8)
         [[_ (H1 & H2 & H3)] (extra & Hlog & Hq)].
  unfold tracked. rewrite Hlog, H1, H2, H3, !count_calls_app.
  rewrite !(count_calls_quiet _ extra) by
    (try exact Hq; intros []; cbn; congruence).
  rewrite !Nat.add_0_r. auto 10.
Qed.

(** After [close] on a tracked state every creation is matched by exactly
    one release. *)
Lemma tracked_close st :
  tracked st →
  let calls := log st ++ close_calls (self st) in
  count_calls is_zed_open calls = 1%nat ∧
  count_calls is_zed_close calls = 1%nat ∧
  count_calls is_socket_close calls = count_calls is_socket_open calls ∧
  count_calls is_context_term calls = count_calls is_context_open calls ∧
  count_calls is_writer_release calls = count_calls is_writer_open calls.
Proof.
  intros (T1 & T2 & T3 & T4 & T5 & T6 & T7 & T8). cbn zeta.
  rewrite !count_calls_app, T1, T2, T3, T4, T5, T6, T7, T8.
  unfold close_calls.
  destruct (is_set (video_writer (self st))), (is_set (zmq_socket (self st))),
    (is_set (zmq_context (self st))); cbn; auto.
Qed.
End Shutdown.

Section ProducerMain.
Import ZEDStreamer.

(** What [main] runs inside its [try]. *)
Definition main_body (a : args) (w : world) : M state unit :=
  ((if Z.ltb 0 (arg_port a) then
      _ <- start_zmq_server (zmq_available w) (bind_ok w) (arg_port a) ;;
      ret tt
    else ret tt) ;;;
   match save_path a with
   | Some path => start_video_writer path
   | None => ret tt
   end ;;;
   run (arg_display a) (arg_duration a) (t_start w) (t_fps w) (ticks w))%py.

Lemma main_unfold a w :
  main a w =
  match __init__ (unicode_lower w) (arg_resolution a) (arg_fps a)
                 (arg_depth a) (arg_serial a) (cam w) with
  | (Ret streamer, calls) =>
      match try_finally (main_body a w) close {| self := streamer; log := calls |} with
      | (r, st) => (r, log st)
      end
  | (Raise e, calls) => (Raise e, calls)
  | (Unfinished, calls) => (Unfinished, calls)
  end.
Proof. reflexivity. Qed.

Lemma init_tracked ul resolution fps_ ed serial cam_ s calls :
  __init__ ul resolution fps_ ed serial cam_ = (Ret s, calls) →
  tracked {| self := s; log := calls |}.
Proof.
  unfold __init__. destruct (is_success (open_status cam_)); [|discriminate].
  intros [= <- <-]. repeat split.
Qed.

Lemma run_tracked display duration t0 t1 ticks_ st :
  tracked st → tracked (run display duration t0 t1 ticks_ st).2.
Proof. intros H. eapply tracked_evolves; [exact H | apply run_quiet]. Qed.

Lemma main_body_tracked a w st :
  tracked st →
  zmq_socket (self st) = None → zmq_context (self st) = None →
  video_writer (self st) = None →
  tracked (main_body a w st).2.
Proof.
  intros (T1 & T2 & T3 & T4 & T5 & T6 & T7 & T8) Hs Hc Hw.
  destruct st as [s l]. cbn in *. rewrite Hs, Hc, Hw in *. cbn in *.
  unfold main_body, start_zmq_server, start_video_writer, bind.
  destruct (Z.ltb 0 (arg_port a)), (zmq_available w), (bind_ok w), (save_path a);
    cbn -[run].
  all: try (apply run_tracked).
  all: unfold tracked, count_calls; cbn; rewrite ?Hs, ?Hc, ?Hw; cbn;
    rewrite ?List.filter_app, ?length_app, ?T1, ?T2, ?T3, ?T4, ?T5, ?T6, ?T7, ?T8;
    cbn; auto 10.
Qed.
End ProducerMain.

(** ** Code that comes to an end

    [settled m]: [m] returns or raises; it is never left inside a loop. *)

Definition settled {S A} (m : M S A) : Prop := ∀ st, (m st).1 ≠ Unfinished.

Section Settled.
Context {S : Type}.

Lemma settled_ret {A} (a : A) : settled (@ret S A a).
Proof. intros st. discriminate. Qed.

Lemma settled_raise {A} e : settled (@raise S A e).
Proof. intros st. discriminate. Qed.

Lemma settled_get : settled (@get S).
Proof. intros st. discriminate. Qed.

Lemma settled_modify f : settled (@modify S f).
Proof. intros st. discriminate. Qed.

Lemma settled_bind {A B} (m : M S A) (k : A → M S B) :
  settled m → (∀ a, settled (k a)) → settled (bind m k).
Proof.
  intros Hm Hk st. unfold bind. specialize (Hm st).
  destruct (m st) as [[a|e|] st1]; cbn in *; [apply Hk|discriminate|congruence].
Qed.

Lemma settled_try_except {A} (body handler : M S A) catches :
  settled body → settled handler → settled (try_except body catches handler).
Proof.
  intros Hb Hh st. unfold try_except. specialize (Hb st).
  destruct (body st) as [[a|e|] st1]; cbn in *; try exact Hb.
  destruct (catches e); [apply Hh|discriminate].
Qed.

Lemma settled_try_finally {A} (body : M S A) (cleanup : M S unit) :
  settled body → settled cleanup → settled (try_finally body cleanup).
Proof.
  intros Hb Hc st. unfold try_finally. specialize (Hb st).
  destruct (body st) as [[a|e|] st1]; cbn in *; try exact Hb;
    specialize (Hc st1); destruct (cleanup st1) as [[u|e'|] st2];
    cbn in *; first [discriminate | congruence].
Qed.

Lemma settled_getitem d key_ : settled (@getitem S d key_).
Proof. unfold getitem. destruct (d !! key_); [apply settled_ret|apply settled_raise]. Qed.
End Settled.

Ltac settled_step :=
  lazymatch goal with
  | |- settled (bind _ _) => apply settled_bind; [ | intros ]
  | |- settled (ret _) => apply settled_ret
  | |- settled (raise _) => apply settled_raise
  | |- settled get => apply settled_get
  | |- settled (getitem _ _) => apply settled_getitem
  | |- settled (ZEDStreamer.emit _) => apply settled_modify
  | |- settled (ZEDStreamer.update _) => apply settled_modify
  | |- settled (ZEDStreamer.as_image ?v) => destruct v; cbn
  | |- settled (ZEDStreamer.as_depth ?v) => destruct v; cbn
  | |- settled (try_except _ _ _) => apply settled_try_except
  | |- settled (if _ then _ else _) => case_match
  | |- settled (match _ with _ => _ end) => case_match
  end.

Section ProducerStops.
Import ZEDStreamer.

Lemma grab_frame_settled g : settled (grab_frame g).
Proof. unfold grab_frame. repeat settled_step. Qed.

Lemma publish_frame_settled frame : settled (publish_frame frame).
Proof. unfold publish_frame. repeat settled_step. Qed.

Lemma preview_settled frame k : settled (preview frame k).
Proof. unfold preview. repeat settled_step. Qed.

Lemma iteration_settled display duration start tk fc ft :
  settled (iteration display duration start tk fc ft).
Proof.
  unfold iteration.
  repeat first [ apply grab_frame_settled | apply publish_frame_settled
               | apply preview_settled | settled_step ].
Qed.

Lemma close_settled : settled close.
Proof. intros st. rewrite close_spec. discriminate. Qed.

(** A pass that meets the interrupt raises it at once. *)
Lemma iteration_interrupted display duration start tk fc ft st :
  interrupt tk = true →
  iteration display duration start tk fc ft st = (Raise KeyboardInterrupt, st).
Proof. intros H. unfold iteration. rewrite H. reflexivity. Qed.

(** With an interrupt among the passes supplied, the loop comes to an end. *)
Lemma loop_settled display duration start ticks_ :
  Exists (fun tk => interrupt tk = true) ticks_ →
  ∀ fc ft, settled (loop display duration start ticks_ fc ft).
Proof.
  induction ticks_ as [|tk rest IH]; intros Hex fc ft.
  - apply Exists_nil in Hex. contradiction.
  - cbn [loop]. apply settled_bind; [apply settled_get|]. intros st.
    destruct (negb (running (self st))); [apply settled_ret|].
    destruct (interrupt tk) eqn:Hi.
    + intros st1. unfold bind.
      rewrite (iteration_interrupted _ _ _ _ _ _ _ Hi). discriminate.
    + apply Exists_cons in Hex as [Hex|Hex]; [congruence|].
      apply settled_bind; [apply iteration_settled|].
      intros [[[] fc'] ft']; [apply IH; exact Hex | apply settled_ret].
Qed.

Lemma main_body_settled a w :
  Exists (fun tk => interrupt tk = true) (ticks w) → settled (main_body a w).
Proof.
  intros Hex. unfold main_body, run, start_zmq_server, start_video_writer.
  repeat first [ apply (loop_settled _ _ _ _ Hex) | settled_step ].
Qed.

Lemma main_settled a w :
  is_success (open_status (cam w)) = true →
  Exists (fun tk => interrupt tk = true) (ticks w) →
  (main a w).1 ≠ Unfinished.
Proof.
  intros Hopen Hex. rewrite main_unfold. unfold __init__. rewrite Hopen.
  pose proof (settled_try_finally _ _ (main_body_settled a w Hex) close_settled) as H.
  match goal with |- context [try_finally _ _ ?st] => specialize (H st);
    destruct (try_finally (main_body a w) close st) as [r st'] end.
  exact H.
Qed.

(** Once [main] has come to an end after a successful start, every
    resource it created has been released exactly once. *)
Lemma main_releases a w :
  is_success (open_status (cam w)) = true →
  (main a w).1 ≠ Unfinished →
  let calls := (main a w).2 in
  count_calls is_zed_open calls = 1%nat ∧
  count_calls is_zed_close calls = 1%nat ∧
  count_calls is_socket_close calls = count_calls is_socket_open calls ∧
  count_calls is_context_term calls = count_calls is_context_open calls ∧
  count_calls is_writer_release calls = count_calls is_writer_open calls.
Proof.
  intros Hopen. rewrite main_unfold.
  destruct (__init__ (unicode_lower w) (arg_resolution a) (arg_fps a)
              (arg_depth a) (arg_serial a) (cam w)) as [[s| |] calls0] eqn:Hinit.
  2,3: unfold __init__ in Hinit; rewrite Hopen in Hinit; discriminate.
  pose proof (init_tracked _ _ _ _ _ _ _ _ Hinit) as Ht.
  assert (Hnone : zmq_socket s = None ∧ zmq_context s = None ∧ video_writer s = None).
  { unfold __init__ in Hinit. rewrite Hopen in Hinit.
    injection Hinit as <- _. auto. }
  destruct Hnone as (Hs & Hc & Hw).
  pose proof (main_body_tracked a w _ Ht Hs Hc Hw) as Hb.
  unfold try_finally.
  destruct (main_body a w {| self := s; log := calls0 |}) as [r1 st1].
  cbn [snd] in Hb. rewrite close_spec.
  destruct r1; cbn; intros Hfin; try contradiction;
    apply (tracked_close st1 Hb).
Qed.
End ProducerStops.

(** C8, as the code has it.  After a successful start, [main] comes to an
    end once the stream is interrupted, and when it has come to an end its
    [finally] has called [close] once: the camera is closed exactly once, and
    the socket, the context and the video writer are released exactly once
    each if they were created.  [close] itself keeps no record of having
    run: it always returns, changes no field of the streamer, and a second
    call makes the same release calls again. *)
Theorem main_releases_once (a : ZEDStreamer.args) (w : ZEDStreamer.world) :
  is_success (ZEDStreamer.open_status (ZEDStreamer.cam w)) = true →
  (Exists (fun tk => ZEDStreamer.interrupt tk = true) (ZEDStreamer.ticks w) →
     (ZEDStreamer.main a w).1 ≠ Unfinished) ∧
  ((ZEDStreamer.main a w).1 ≠ Unfinished →
     let calls := (ZEDStreamer.main a w).2 in
     count_calls is_zed_close calls = 1%nat ∧
     count_calls is_socket_close calls = count_calls is_socket_open calls ∧
     count_calls is_context_term calls = count_calls is_context_open calls ∧
     count_calls is_writer_release calls = count_calls is_writer_open calls) ∧
  (∀ st,
     (ZEDStreamer.close st).1 = Ret tt ∧
     ZEDStreamer.self (ZEDStreamer.close st).2 = ZEDStreamer.self st ∧
     ZEDStreamer.log (ZEDStreamer.close (ZEDStreamer.close st).2).2
     = (ZEDStreamer.log st ++ close_calls (ZEDStreamer.self st))
         ++ close_calls (ZEDStreamer.self st)).
Proof.
  intros Hopen. split; [|split].
  - apply main_settled; exact Hopen.
  - intros Hfin. apply (main_releases a w Hopen Hfin).
  - intros st. rewrite !close_spec. cbn. auto.
Qed.

Definition sample_tick (stop : bool) : ZEDStreamer.tick :=
  {| ZEDStreamer.interrupt := stop;
     ZEDStreamer.t_loop := 0%Q;
     ZEDStreamer.shot := sample_grab;
     ZEDStreamer.key := (-1);
     ZEDStreamer.t_fps_check := 0%Q;
     ZEDStreamer.t_fps_now := 0%Q;
     ZEDStreamer.t_fps_reset := 0%Q |}.

Definition sample_args : ZEDStreamer.args :=
  {| ZEDStreamer.arg_resolution := of_ascii "720p";
     ZEDStreamer.arg_fps := 30;
     ZEDStreamer.arg_depth := false;
     ZEDStreamer.arg_serial := None;
     ZEDStreamer.arg_port := 5556;
     ZEDStreamer.arg_display := false;
     ZEDStreamer.arg_save := None;
     ZEDStreamer.arg_duration := None |}.

(** One frame is streamed, then the user interrupts. *)
Definition sample_world (status : ERROR_CODE) : ZEDStreamer.world :=
  {| ZEDStreamer.unicode_lower := fun c => [c];
     ZEDStreamer.cam :=
       {| ZEDStreamer.open_status := status;
          ZEDStreamer.cam_width := 1280; ZEDStreamer.cam_height := 720 |};
     ZEDStreamer.zmq_available := true;
     ZEDStreamer.bind_ok := true;
     ZEDStreamer.t_start := 0%Q;
     ZEDStreamer.t_fps := 0%Q;
     ZEDStreamer.ticks := [sample_tick false; sample_tick true] |}.

Example sample_main_log :
  ZEDStreamer.main sample_args (sample_world SUCCESS)
  = (Ret tt,
     [ zed_open HD720 30 NONE None; py_print "ZED Camera initialized:";
       py_print "  Model: "; py_print "  Serial: "; py_print "  Resolution: ";
       py_print "  Depth: ";
       zmq_Context; zmq_socket_PUB; zmq_bind 5556;
       py_print "ZMQ publisher started on port "; py_print ZEDStreamer.started;
       zed_grab; zed_retrieve_image;
       zmq_send (packb (<["image" := VImage [[[30; 20; 10]]]]>
                          (<["timestamp" := VFloat 5%Q]> ∅)));
       py_print "Stopping...";
       zmq_socket_close; zmq_context_term; zed_close;
       cv2_destroyAllWindows; py_print "ZED camera closed" ]).
Proof. reflexivity. Qed.

Lemma main_releases_once_witness :
  (ZEDStreamer.main sample_args (sample_world SUCCESS)).1 ≠ Unfinished ∧
  count_calls is_zed_close (ZEDStreamer.main sample_args (sample_world SUCCESS)).2 = 1%nat.
Proof.
  pose proof (main_releases_once sample_args (sample_world SUCCESS) eq_refl)
    as (Hstop & Hrel & _).
  assert (Hfin : (ZEDStreamer.main sample_args (sample_world SUCCESS)).1 ≠ Unfinished).
  { apply Hstop. right. left. reflexivity. }
  split; [exact Hfin | exact (proj1 (Hrel Hfin))].
Defined.

(** C8 fails as stated: on a streamer with its publisher bound, a second
    [close] changes the state again, and the log then holds two releases of
    the socket, of the context and of the camera. *)
Lemma close_twice_releases_twice :
  let st0 := {| ZEDStreamer.self := bound_streamer false; ZEDStreamer.log := [] |} in
  let st1 := (ZEDStreamer.close st0).2 in
  let st2 := (ZEDStreamer.close st1).2 in
  st2 ≠ st1 ∧
  count_calls is_socket_close (ZEDStreamer.log st1) = 1%nat ∧
  count_calls is_socket_close (ZEDStreamer.log st2) = 2%nat ∧
  count_calls is_context_term (ZEDStreamer.log st2) = 2%nat ∧
  count_calls is_zed_close (ZEDStreamer.log st2) = 2%nat.
Proof.
  cbn zeta. split; [|repeat split].
  intros H. apply (f_equal (fun st => length (ZEDStreamer.log st))) in H.
  vm_compute in H. discriminate H.
Qed.

(** ** Failures at start-up and while streaming *)

Definition logged (c : call) (st : ZEDStreamer.state) : ZEDStreamer.state :=
  {| ZEDStreamer.self := ZEDStreamer.self st;
     ZEDStreamer.log := ZEDStreamer.log st ++ [c] |}.

(** C6. A pass of the streaming loop whose grab fails makes [grab_frame]
    return [None]; the pass then publishes, writes and shows nothing, leaves
    the object and the loop's counters as they were, and the loop goes on
    with the next pass.  A camera that does not open makes the constructor
    raise [RuntimeError]; [main] ends with that error having done nothing but
    the attempt to open: the streaming loop is never started and no frame is
    grabbed. *)
Theorem grab_miss_skips_open_failure_aborts :
  (∀ display duration start tk rest fc ft st,
     ZEDStreamer.running (ZEDStreamer.self st) = true →
     ZEDStreamer.interrupt tk = false →
     ZEDStreamer.duration_over duration start (ZEDStreamer.t_loop tk) = false →
     is_success (ZEDStreamer.grab_status (ZEDStreamer.shot tk)) = false →
     ZEDStreamer.grab_frame (ZEDStreamer.shot tk) st = (Ret None, logged zed_grab st) ∧
     ZEDStreamer.iteration display duration start tk fc ft st
     = (Ret (Continue, fc, ft), logged zed_grab st) ∧
     ZEDStreamer.loop display duration start (tk :: rest) fc ft st
     = ZEDStreamer.loop display duration start rest fc ft (logged zed_grab st)) ∧
  (∀ a w,
     is_success (ZEDStreamer.open_status (ZEDStreamer.cam w)) = false →
     ∃ msg opened,
       is_zed_open opened = true ∧
       ZEDStreamer.__init__ (ZEDStreamer.unicode_lower w)
         (ZEDStreamer.arg_resolution a) (ZEDStreamer.arg_fps a)
         (ZEDStreamer.arg_depth a) (ZEDStreamer.arg_serial a) (ZEDStreamer.cam w)
       = (Raise (RuntimeError msg), [opened]) ∧
       ZEDStreamer.main a w = (Raise (RuntimeError msg), [opened]) ∧
       (py_print ZEDStreamer.started ∉ (ZEDStreamer.main a w).2) ∧
       (zed_grab ∉ (ZEDStreamer.main a w).2)).
Proof.
  split.
  - intros display duration start tk rest fc ft st Hrun Hint Hdur Hgrab.
    assert (G : ZEDStreamer.grab_frame (ZEDStreamer.shot tk) st
                = (Ret None, logged zed_grab st)).
    { unfold ZEDStreamer.grab_frame, bind. cbn. rewrite Hgrab. reflexivity. }
    assert (I : ZEDStreamer.iteration display duration start tk fc ft st
                = (Ret (Continue, fc, ft), logged zed_grab st)).
    { unfold ZEDStreamer.iteration. rewrite Hint, Hdur. unfold bind at 1.
      rewrite G. reflexivity. }
    split; [exact G|split; [exact I|]].
    cbn [ZEDStreamer.loop]. unfold bind at 1. cbn [get]. rewrite Hrun. cbn [negb].
    unfold bind at 1. rewrite I. reflexivity.
  - intros a w Hopen. unfold ZEDStreamer.main, ZEDStreamer.__init__.
    rewrite Hopen. cbn.
    eexists _, _. split; [|split; [reflexivity|split; [reflexivity|]]].
    + reflexivity.
    + split; intros H; apply list_elem_of_singleton in H; discriminate H.
Qed.

Lemma grab_miss_skips_open_failure_aborts_witness :
  ZEDStreamer.main sample_args (sample_world (FAILURE 3))
  = (Raise (RuntimeError "Failed to open ZED camera: "), [zed_open HD720 30 NONE None]).
Proof.
  destruct (proj2 grab_miss_skips_open_failure_aborts sample_args
              (sample_world (FAILURE 3)) eq_refl)
    as (msg & opened & _ & Hinit & Hmain & _).
  injection Hinit as <- <-. exact Hmain.
Defined.

(** A failed grab between two good ones: the stream goes on. *)
Example sample_missed_frame :
  let miss :=
    {| ZEDStreamer.interrupt := false; ZEDStreamer.t_loop := 0%Q;
       ZEDStreamer.shot :=
         {| ZEDStreamer.grab_status := FAILURE 1;
            ZEDStreamer.image_data := []; ZEDStreamer.t_stamp := 0%Q;
            ZEDStreamer.depth_data := [] |};
       ZEDStreamer.key := (-1); ZEDStreamer.t_fps_check := 0%Q;
       ZEDStreamer.t_fps_now := 0%Q; ZEDStreamer.t_fps_reset := 0%Q |} in
  let w := sample_world SUCCESS in
  let w' :=
    {| ZEDStreamer.unicode_lower := ZEDStreamer.unicode_lower w;
       ZEDStreamer.cam := ZEDStreamer.cam w;
       ZEDStreamer.zmq_available := true; ZEDStreamer.bind_ok := true;
       ZEDStreamer.t_start := 0%Q; ZEDStreamer.t_fps := 0%Q;
       ZEDStreamer.ticks := [sample_tick false; miss; sample_tick false] |} in
  (ZEDStreamer.main sample_args w').1 = Unfinished ∧
  count_calls (fun c => match c with zmq_send _ => true | _ => false end)
              (ZEDStreamer.main sample_args w').2 = 2%nat ∧
  count_calls (fun c => match c with zed_grab => true | _ => false end)
              (ZEDStreamer.main sample_args w').2 = 3%nat.
Proof. repeat split. Qed.

(** ** The message on the wire, and what the viewer makes of it *)

(** The dictionary [publish_frame] packs for a frame whose timestamp is [ts]
    and whose image is [im]. *)
Definition wire_message (frame : gmap string pyval) (ts im : pyval)
    : gmap string pyval :=
  let message : gmap string pyval :=
    <["image" := im]> (<["timestamp" := ts]> ∅) in
  match frame !! "depth" with
  | Some d => <["depth" := d]> message
  | None => message
  end.

Lemma publish_frame_sends frame st ts im :
  is_Some (ZEDStreamer.zmq_socket (ZEDStreamer.self st)) →
  frame !! "timestamp" = Some ts →
  frame !! "image" = Some im →
  ZEDStreamer.publish_frame frame st
  = (Ret tt, logged (zmq_send (packb (wire_message frame ts im))) st).
Proof.
  intros [k Hk] Hts Him.
  unfold ZEDStreamer.publish_frame, bind, get, getitem, wire_message. cbn.
  rewrite Hk, Hts. cbn. rewrite Him. cbn.
  destruct (frame !! "depth"); reflexivity.
Qed.

Lemma wire_message_lookup frame ts im :
  wire_message frame ts im !! "image" = Some im ∧
  wire_message frame ts im !! "timestamp" = Some ts ∧
  wire_message frame ts im !! "depth" = frame !! "depth" ∧
  wire_message frame ts im !! "images" = None.
Proof.
  unfold wire_message.
  destruct (frame !! "depth"); repeat split; simplify_map_eq; reflexivity.
Qed.

(** A message without an ['images'] entry gives the viewer nothing to show:
    the arrival is recorded, the warning is printed, and the pass is over. *)
Lemma viewer_finds_no_images b64decode imdecode tk v (message : gmap string pyval) :
  CameraViewer.interrupt tk = false →
  CameraViewer.arrival tk = CameraViewer.Message (packb message) →
  message !! "images" = None →
  CameraViewer.iteration b64decode imdecode tk v
  = (Ret Continue,
     {| CameraViewer.self :=
          CameraViewer.record_arrival (CameraViewer.t_recv tk) (CameraViewer.self v);
        CameraViewer.log :=
          CameraViewer.log v ++ [zmq_recv; py_print "No images in frame"] |}).
Proof.
  intros Hint Harr Hno.
  unfold CameraViewer.iteration. rewrite Hint, Harr.
  unfold CameraViewer.receive_frame, CameraViewer.dict_get, bind,
    CameraViewer.emit, CameraViewer.update, modify, lift, ret.
  cbn. rewrite Hno. cbn.
  rewrite (bool_decide_eq_true_2 _ (eq_refl : (∅ : gmap string pyval) = ∅)). cbn.
  rewrite <- app_assoc. reflexivity.
Qed.

(** C2, as the code has it.  The message [publish_frame] sends carries the
    frame's image array, timestamp and (when the frame has one) depth map
    themselves, and unpacking what was packed yields that dictionary: so the
    image has the frame's dimensions, the timestamp is the capture time and
    the depth values are the frame's.  The viewer of this repository looks
    for the entries ['images'] and ['timestamps'], which the message does not
    have: its pass over such a message decodes and shows no image. *)
Theorem streamed_message_contents
    (frame : gmap string pyval) (st : ZEDStreamer.state) (ts : Q) (im : image) :
  is_Some (ZEDStreamer.zmq_socket (ZEDStreamer.self st)) →
  frame !! "timestamp" = Some (VFloat ts) →
  frame !! "image" = Some (VImage im) →
  ∃ message : gmap string pyval,
    ZEDStreamer.publish_frame frame st
    = (Ret tt, logged (zmq_send (packb message)) st) ∧
    unpackb (packb message) = Ret (VDict message) ∧
    (∃ im', message !! "image" = Some (VImage im') ∧ dims im' = dims im ∧ im' = im) ∧
    message !! "timestamp" = Some (VFloat ts) ∧
    message !! "depth" = frame !! "depth" ∧
    (∀ b64decode imdecode tk v,
       CameraViewer.interrupt tk = false →
       CameraViewer.arrival tk = CameraViewer.Message (packb message) →
       CameraViewer.iteration b64decode imdecode tk v
       = (Ret Continue,
          {| CameraViewer.self :=
               CameraViewer.record_arrival (CameraViewer.t_recv tk) (CameraViewer.self v);
             CameraViewer.log :=
               CameraViewer.log v ++ [zmq_recv; py_print "No images in frame"] |})).
Proof.
  intros Hsock Hts Him.
  destruct (wire_message_lookup frame (VFloat ts) (VImage im)) as (Li & Lt & Ld & Ln).
  exists (wire_message frame (VFloat ts) (VImage im)).
  split; [apply publish_frame_sends; assumption|].
  split; [reflexivity|].
  split; [exists im; auto|].
  split; [exact Lt|]. split; [exact Ld|].
  intros b64decode imdecode tk v Hint Harr.
  exact (viewer_finds_no_images _ _ _ _ _ Hint Harr Ln).
Qed.

Lemma streamed_message_contents_witness :
  ∃ message : gmap string pyval,
    ZEDStreamer.publish_frame (sample_frame true)
      {| ZEDStreamer.self := bound_streamer true; ZEDStreamer.log := [] |}
    = (Ret tt, logged (zmq_send (packb message))
                 {| ZEDStreamer.self := bound_streamer true; ZEDStreamer.log := [] |}) ∧
    message !! "depth" = Some (VDepth [[1065353216]]).
Proof.
  destruct (streamed_message_contents (sample_frame true)
              {| ZEDStreamer.self := bound_streamer true; ZEDStreamer.log := [] |}
              5%Q [[[30; 20; 10]]])
    as (message & Hsend & _ & _ & _ & Hdepth & _).
  - eexists. reflexivity.
  - reflexivity.
  - reflexivity.
  - exists message. split; [exact Hsend | exact Hdepth].
Defined.

(** C2 fails as stated: the streamer publishes a frame with a 1x1 image
    taken at time 5; the viewer receives exactly that message at time 6,
    with decoders that would decode anything, and shows no image at all:
    it reports that the frame has no images. *)
Lemma viewer_shows_nothing_of_streamed_frame :
  let sent := packb (<["image" := VImage [[[30; 20; 10]]]]>
                       (<["timestamp" := VFloat 5%Q]> ∅)) in
  let producer := {| ZEDStreamer.self := bound_streamer false; ZEDStreamer.log := [] |} in
  let viewer := CameraViewer.__init__ "127.0.0.1" 5556 0%Q in
  let tk := {| CameraViewer.interrupt := false;
               CameraViewer.arrival := CameraViewer.Message sent;
               CameraViewer.t_recv := 6%Q;
               CameraViewer.t_latency := fun _ => 6%Q;
               CameraViewer.key := (-1) |} in
  ZEDStreamer.publish_frame (sample_frame false) producer
  = (Ret tt, logged (zmq_send sent) producer) ∧
  CameraViewer.iteration (fun _ => Some []) (fun _ => Some [[[0; 0; 0]]]) tk viewer
  = (Ret Continue,
     {| CameraViewer.self := CameraViewer.record_arrival 6%Q (CameraViewer.self viewer);
        CameraViewer.log :=
          CameraViewer.log viewer ++ [zmq_recv; py_print "No images in frame"] |}).
Proof. split; reflexivity. Qed.


(** * Further properties of the two scripts *)

(** ** Weakest preconditions for the monad

    [wp m Q E st]: run from [st], [m] either returns a value and a state
    that satisfy [Q], or stops otherwise (raising, or still looping) in a
    state that satisfies [E]. *)

Section WeakestPre.
Context {S : Type}.

Definition wp {A} (m : M S A) (Q : A → S → Prop) (E : S → Prop) (st : S) : Prop :=
  match m st with
  | (Ret a, st') => Q a st'
  | (_, st') => E st'
  end.

Lemma wp_ret {A} (a : A) Q E st : Q a st → wp (ret a) Q E st.
Proof. intros H. exact H. Qed.

Lemma wp_raise {A} e (Q : A → S → Prop) E st : E st → wp (raise e) Q E st.
Proof. intros H. exact H. Qed.

Lemma wp_unfinished {A} (Q : A → S → Prop) E st : E st → wp unfinished Q E st.
Proof. intros H. exact H. Qed.

Lemma wp_get Q E st : Q st st → wp get Q E st.
Proof. intros H. exact H. Qed.

Lemma wp_modify f Q E st : Q tt (f st) → wp (modify f) Q E st.
Proof. intros H. exact H. Qed.

Lemma wp_lift {A} (r : outcome A) Q E st :
  match r with Ret a => Q a st | _ => E st end → wp (lift r) Q E st.
Proof. intros H. unfold wp, lift. destruct r; exact H. Qed.

Lemma wp_bind {A B} (m : M S A) (k : A → M S B) Q E st :
  wp m (fun a st' => wp (k a) Q E st') E st → wp (bind m k) Q E st.
Proof.
  unfold wp, bind. destruct (m st) as [[a|e|] st']; intros H; exact H.
Qed.

Lemma wp_conseq {A} (m : M S A) (Q Q' : A → S → Prop) (E E' : S → Prop) st :
  wp m Q E st → (∀ a st', Q a st' → Q' a st') → (∀ st', E st' → E' st') →
  wp m Q' E' st.
Proof.
  unfold wp. destruct (m st) as [[a|e|] st']; intros H HQ HE; auto.
Qed.

(** A call whose result is known. *)
Lemma wp_known {A} (m : M S A) r st' Q E st :
  m st = (r, st') →
  match r with Ret a => Q a st' | _ => E st' end →
  wp m Q E st.
Proof. intros Hm H. unfold wp. rewrite Hm. destruct r; exact H. Qed.


Lemma wp_try_finally {A} (body : M S A) (cleanup : M S unit) Q E st :
  wp body (fun a st' => wp cleanup (fun _ st'' => Q a st'') E st')
          (fun st' => E st' ∧ wp cleanup (fun _ st'' => E st'') E st') st →
  wp (try_finally body cleanup) Q E st.
Proof.
  unfold wp, try_finally.
  destruct (body st) as [[a|e|] st'].
  - intros H. destruct (cleanup st') as [[u|e'|] st'']; exact H.
  - intros [_ H]. destruct (cleanup st') as [[u|e'|] st'']; exact H.
  - intros [HE _]. exact HE.
Qed.

Lemma wp_for_each {A} (l : list A) (body : A → M S unit) (I : S → Prop) E :
  (∀ x st, x ∈ l → I st → wp (body x) (fun _ st' => I st') E st) →
  ∀ st, I st → wp (for_each l body) (fun _ st' => I st') E st.
Proof.
  induction l as [|x l IH]; intros Hbody st HI; cbn [for_each].
  - apply wp_ret. exact HI.
  - apply wp_bind. eapply wp_conseq.
    + apply Hbody; [left | exact HI].
    + intros u st' HI'. apply IH; [|exact HI'].
      intros y st0 Hy. apply Hbody. right. exact Hy.
    + auto.
Qed.

Lemma wp_getitem d key_ (Q : pyval → S → Prop) E st :
  match d !! key_ with Some v => Q v st | None => E st end →
  wp (getitem d key_) Q E st.
Proof. unfold wp, getitem. destruct (d !! key_); intros H; exact H. Qed.
End WeakestPre.


Ltac wp_step :=
  lazymatch goal with
  | |- wp (bind _ _) _ _ _ => apply wp_bind
  | |- wp (ret _) _ _ _ => apply wp_ret
  | |- wp (raise _) _ _ _ => apply wp_raise
  | |- wp unfinished _ _ _ => apply wp_unfinished
  | |- wp get _ _ _ => apply wp_get
  | |- wp (lift _) _ _ _ => apply wp_lift
  | |- wp (ZEDStreamer.emit _) _ _ _ => apply wp_modify
  | |- wp (ZEDStreamer.update _) _ _ _ => apply wp_modify
  | |- wp (CameraViewer.emit _) _ _ _ => apply wp_modify
  | |- wp (CameraViewer.update _) _ _ _ => apply wp_modify
  | |- wp (getitem _ _) _ _ _ => apply wp_getitem
  | |- wp (if ?b then _ else _) _ _ _ => destruct b eqn:?
  | |- wp (match ?x with _ => _ end) _ _ _ => destruct x eqn:?
  end; cbv beta.

(** ** One pass of the streaming loop *)

Definition is_send (c : call) : bool :=
  match c with zmq_send _ => true | _ => false end.
Definition is_retrieve_image (c : call) : bool :=
  match c with zed_retrieve_image => true | _ => false end.
Definition is_writer_write (c : call) : bool :=
  match c with cv2_writer_write _ => true | _ => false end.
Definition is_window (c : call) : bool :=
  match c with
  | cv2_imshow _ _ | cv2_imshow_depth _ | cv2_waitKey => true
  | _ => false
  end.

Section ProducerPasses.
Import ZEDStreamer.

(** Depth is retrieved when the flag is set and the container exists. *)
Definition depth_on (s : ZEDStreamer.t) : bool :=
  enable_depth s && is_set (depth_map s).

(** The dictionary [grab_frame] builds from what the camera delivered. *)
Definition frame_of (g : grab) (s : ZEDStreamer.t) : gmap string pyval :=
  let result : gmap string pyval :=
    <["timestamp" := VFloat (t_stamp g)]>
      (<["image" := VImage (bgra_to_rgb (image_data g))]> ∅) in
  if depth_on s then <["depth" := VDepth (depth_data g)]> result else result.

(** The camera calls of one [grab_frame]. *)
Definition grab_calls (g : grab) (s : ZEDStreamer.t) : list call :=
  if is_success (grab_status g) then
    zed_grab :: zed_retrieve_image ::
      (if depth_on s then [zed_retrieve_measure] else [])
  else [zed_grab].

Lemma grab_frame_eq g st :
  grab_frame g st
  = (Ret (if is_success (grab_status g) then Some (frame_of g (self st)) else None),
     {| self := self st; log := log st ++ grab_calls g (self st) |}).
Proof.
  unfold grab_frame, frame_of, grab_calls, depth_on, bind, emit, modify, get, ret.
  destruct (is_success (grab_status g)); cbn; [|reflexivity].
  destruct (enable_depth (self st) && is_set (depth_map (self st)));
    cbn; rewrite <- ?app_assoc; reflexivity.
Qed.

Lemma frame_of_lookup g s :
  frame_of g s !! "timestamp" = Some (VFloat (t_stamp g)) ∧
  frame_of g s !! "image" = Some (VImage (bgra_to_rgb (image_data g))) ∧
  frame_of g s !! "depth"
  = (if depth_on s then Some (VDepth (depth_data g)) else None).
Proof.
  unfold frame_of. destruct (depth_on s); repeat split; simplify_map_eq; reflexivity.
Qed.

(** The message packed for a grabbed frame is that frame. *)
Lemma wire_message_grabbed g s :
  wire_message (frame_of g s) (VFloat (t_stamp g))
               (VImage (bgra_to_rgb (image_data g)))
  = frame_of g s.
Proof.
  unfold wire_message.
  destruct (frame_of_lookup g s) as (_ & _ & Hd). rewrite Hd.
  unfold frame_of.
  destruct (depth_on s);
    rewrite (insert_insert_ne _ "image" "timestamp") by discriminate; reflexivity.
Qed.

Lemma publish_grabbed g st :
  is_set (zmq_socket (self st)) = true →
  publish_frame (frame_of g (self st)) st
  = (Ret tt, logged (zmq_send (packb (frame_of g (self st)))) st).
Proof.
  intros Hs.
  destruct (frame_of_lookup g (self st)) as (Ht & Hi & _).
  assert (Hsome : is_Some (zmq_socket (self st))).
  { destruct (zmq_socket (self st)); [eexists; reflexivity | discriminate Hs]. }
  rewrite (publish_frame_sends _ _ _ _ Hsome Ht Hi).
  rewrite wire_message_grabbed. reflexivity.
Qed.
End ProducerPasses.


(** ** The calls of one pass of the streaming loop, written out *)

Section ProducerPass.
Import ZEDStreamer.

Definition publish_calls (g : grab) (s : ZEDStreamer.t) : list call :=
  if is_set (zmq_socket s) then [zmq_send (packb (frame_of g s))] else [].

Definition write_calls (g : grab) (s : ZEDStreamer.t) : list call :=
  if is_set (video_writer s)
  then [cv2_writer_write (reverse_channels (bgra_to_rgb (image_data g)))]
  else [].

Definition preview_calls (g : grab) (s : ZEDStreamer.t) : list call :=
  cv2_imshow "ZED Stream" (reverse_channels (bgra_to_rgb (image_data g))) ::
  (if depth_on s then [cv2_imshow_depth (depth_data g)] else []) ++ [cv2_waitKey].

(** [q] was pressed in the preview window. *)
Definition quit_key (k : Z) : bool := Z.eqb (Z.land k 255) 113.

Definition report_due (tk : tick) (fps_time : Q) : bool :=
  Qle_bool 2 (t_fps_check tk - fps_time).

Definition report_calls (tk : tick) (frame_count : Z) (fps_time : Q) : list call :=
  if report_due tk fps_time
  then [py_print_fps frame_count (t_fps_now tk - fps_time)]
  else [].

(** The calls of a pass that got a frame. *)
Definition frame_calls (display : bool) (tk : tick) (frame_count : Z)
    (fps_time : Q) (s : ZEDStreamer.t) : list call :=
  publish_calls (shot tk) s ++ write_calls (shot tk) s ++
  (if display then
     preview_calls (shot tk) s ++
     (if quit_key (key tk) then [] else report_calls tk (frame_count + 1) fps_time)
   else report_calls tk (frame_count + 1) fps_time).

(** The calls of a pass that is not interrupted. *)
Definition pass_calls (display : bool) (duration : option Q) (start_time : Q)
    (tk : tick) (frame_count : Z) (fps_time : Q) (s : ZEDStreamer.t) : list call :=
  if duration_over duration start_time (t_loop tk) then []
  else
    grab_calls (shot tk) s ++
    (if is_success (grab_status (shot tk))
     then frame_calls display tk frame_count fps_time s else []).

(** What a pass that is not interrupted hands back to the loop. *)
Definition pass_result (display : bool) (duration : option Q) (start_time : Q)
    (tk : tick) (frame_count : Z) (fps_time : Q) : flow * Z * Q :=
  if duration_over duration start_time (t_loop tk) then (Break, frame_count, fps_time)
  else if negb (is_success (grab_status (shot tk))) then (Continue, frame_count, fps_time)
  else if display && quit_key (key tk) then (Break, frame_count + 1, fps_time)
  else if report_due tk fps_time then (Continue, 0, t_fps_reset tk)
  else (Continue, frame_count + 1, fps_time).

Lemma publish_step g s l :
  (when (is_set (zmq_socket s)) then publish_frame (frame_of g s))%py
    {| self := s; log := l |}
  = (Ret tt, {| self := s; log := l ++ publish_calls g s |}).
Proof.
  unfold publish_calls. destruct (is_set (zmq_socket s)) eqn:Hs.
  - exact (publish_grabbed g {| self := s; log := l |} Hs).
  - rewrite app_nil_r. reflexivity.
Qed.

Lemma write_step g s l :
  (if is_set (video_writer s) then
     im <- getitem (frame_of g s) "image" ;;
     a <- as_image im ;;
     emit (cv2_writer_write (reverse_channels a))
   else ret tt)%py {| self := s; log := l |}
  = (Ret tt, {| self := s; log := l ++ write_calls g s |}).
Proof.
  unfold write_calls. destruct (is_set (video_writer s)).
  - destruct (frame_of_lookup g s) as (_ & Hi & _).
    unfold bind, getitem. rewrite Hi. reflexivity.
  - rewrite app_nil_r. reflexivity.
Qed.

Lemma preview_step g k s l :
  preview (frame_of g s) k {| self := s; log := l |}
  = (Ret (quit_key k), {| self := s; log := l ++ preview_calls g s |}).
Proof.
  destruct (frame_of_lookup g s) as (_ & Hi & Hd).
  unfold preview, preview_calls, quit_key, bind, getitem, get, emit, modify, ret.
  rewrite Hi. cbn. rewrite Hd.
  unfold depth_on. destruct (enable_depth s); cbn.
  - destruct (is_set (depth_map s)); cbn; rewrite <- ?app_assoc; reflexivity.
  - rewrite <- ?app_assoc; reflexivity.
Qed.

(** A pass that is not interrupted returns, and its calls are [pass_calls];
    it changes no field of the object. *)
Lemma iteration_eq display duration start tk fc ft s l :
  interrupt tk = false →
  iteration display duration start tk fc ft {| self := s; log := l |}
  = (Ret (pass_result display duration start tk fc ft),
     {| self := s; log := l ++ pass_calls display duration start tk fc ft s |}).
Proof.
  intros Hint. unfold iteration, pass_result, pass_calls. rewrite Hint.
  destruct (duration_over duration start (t_loop tk)).
  { rewrite app_nil_r. reflexivity. }
  unfold bind at 1. rewrite grab_frame_eq. cbn [self log].
  destruct (is_success (grab_status (shot tk))); cbn [negb].
  2: { rewrite app_nil_r. reflexivity. }
  unfold bind at 1. cbn [get self].
  unfold bind at 1. rewrite publish_step.
  unfold bind at 1. rewrite write_step.
  unfold frame_calls, report_calls, report_due.
  destruct display; cbn [andb].
  - unfold bind at 1. rewrite preview_step.
    destruct (quit_key (key tk)).
    + rewrite app_nil_r, <- !app_assoc. reflexivity.
    + destruct (Qle_bool 2 (t_fps_check tk - ft));
        unfold bind, emit, modify, ret; cbn [self log];
        rewrite ?app_nil_r, <- ?app_assoc; reflexivity.
  - unfold bind at 1. cbn [ret].
    destruct (Qle_bool 2 (t_fps_check tk - ft));
      unfold bind, emit, modify, ret; cbn [self log];
      rewrite ?app_nil_r, <- ?app_assoc; reflexivity.
Qed.
End ProducerPass.


(** ** The calls of the streaming loop and of [run], written out *)

Section ProducerRun.
Import ZEDStreamer.

Fixpoint loop_calls (display : bool) (duration : option Q) (start_time : Q)
    (ticks_ : list tick) (frame_count : Z) (fps_time : Q) (s : ZEDStreamer.t)
    : list call :=
  match ticks_ with
  | [] => []
  | tk :: rest =>
      if interrupt tk then []
      else
        pass_calls display duration start_time tk frame_count fps_time s ++
        match pass_result display duration start_time tk frame_count fps_time with
        | (Break, _, _) => []
        | (Continue, frame_count', fps_time') =>
            loop_calls display duration start_time rest frame_count' fps_time' s
        end
  end.

(** How the loop ends: by [break], by the interrupt, or not within the
    passes supplied. *)
Fixpoint loop_end (display : bool) (duration : option Q) (start_time : Q)
    (ticks_ : list tick) (frame_count : Z) (fps_time : Q) : outcome unit :=
  match ticks_ with
  | [] => Unfinished
  | tk :: rest =>
      if interrupt tk then Raise KeyboardInterrupt
      else
        match pass_result display duration start_time tk frame_count fps_time with
        | (Break, _, _) => Ret tt
        | (Continue, frame_count', fps_time') =>
            loop_end display duration start_time rest frame_count' fps_time'
        end
  end.

Lemma loop_eq display duration start ticks_ :
  ∀ fc ft s l,
    running s = true →
    loop display duration start ticks_ fc ft {| self := s; log := l |}
    = (loop_end display duration start ticks_ fc ft,
       {| self := s;
          log := l ++ loop_calls display duration start ticks_ fc ft s |}).
Proof.
  induction ticks_ as [|tk rest IH]; intros fc ft s l Hrun;
    cbn [loop loop_calls loop_end]; unfold bind at 1; cbn [get self];
    rewrite Hrun; cbn [negb].
  - rewrite app_nil_r. reflexivity.
  - destruct (interrupt tk) eqn:Hint.
    + unfold bind. rewrite (iteration_interrupted _ _ _ _ _ _ _ Hint).
      rewrite app_nil_r. reflexivity.
    + unfold bind. rewrite (iteration_eq _ _ _ _ _ _ _ _ Hint).
      destruct (pass_result display duration start tk fc ft) as [[[] fc'] ft'].
      * rewrite IH by exact Hrun. rewrite <- app_assoc. reflexivity.
      * rewrite app_nil_r. reflexivity.
Qed.

(** The loop left by the interrupt prints that it is stopping. *)
Definition stopping_calls (r : outcome unit) : list call :=
  match r with
  | Raise KeyboardInterrupt => [py_print "Stopping..."]
  | _ => []
  end.

Definition run_calls (display : bool) (duration : option Q) (t0 t1 : Q)
    (ticks_ : list tick) (s : ZEDStreamer.t) : list call :=
  py_print started ::
  loop_calls display duration t0 ticks_ 0 t1 (set_running true s) ++
  stopping_calls (loop_end display duration t0 ticks_ 0 t1).

Lemma loop_end_cases display duration start ticks_ :
  ∀ fc ft,
    loop_end display duration start ticks_ fc ft = Ret tt ∨
    loop_end display duration start ticks_ fc ft = Raise KeyboardInterrupt ∨
    loop_end display duration start ticks_ fc ft = Unfinished.
Proof.
  induction ticks_ as [|tk rest IH]; intros fc ft; cbn [loop_end]; [auto|].
  destruct (interrupt tk); [auto|].
  destruct (pass_result display duration start tk fc ft) as [[[] fc'] ft']; auto.
Qed.

(** [run], whatever it meets: it returns with [running] false unless the
    passes supplied end first, in which case [running] is still true; no
    other field changes, and its calls are [run_calls]. *)
Lemma run_eq display duration t0 t1 ticks_ s l :
  run display duration t0 t1 ticks_ {| self := s; log := l |}
  = (match loop_end display duration t0 ticks_ 0 t1 with
     | Unfinished => Unfinished
     | _ => Ret tt
     end,
     {| self := set_running
                  (match loop_end display duration t0 ticks_ 0 t1 with
                   | Unfinished => true
                   | _ => false
                   end) s;
        log := l ++ run_calls display duration t0 t1 ticks_ s |}).
Proof.
  unfold run, run_calls, try_except.
  unfold bind at 1. cbn [update modify self log].
  unfold bind at 1. cbn [emit modify self log].
  unfold bind at 1.
  rewrite (loop_eq display duration t0 ticks_ 0 t1 (set_running true s)
             (l ++ [py_print started]) eq_refl).
  destruct (loop_end_cases display duration t0 ticks_ 0 t1) as [H|[H|H]];
    rewrite H; cbn; rewrite ?app_nil_r, <- ?app_assoc; reflexivity.
Qed.
End ProducerRun.


(** ** The calls of the producer's [main], written out *)

Section ProducerMainCalls.
Import ZEDStreamer.

(** The object the constructor returns when the camera opens. *)
Definition constructed (a : args) (w : world) : ZEDStreamer.t :=
  {| fps := arg_fps a; enable_depth := arg_depth a; running := false;
     width := cam_width (cam w); height := cam_height (cam w);
     depth_map := if arg_depth a then Some Mat else None;
     zmq_context := None; zmq_socket := None; video_writer := None |}.

Definition init_calls (a : args) (w : world) : list call :=
  [ zed_open (_parse_resolution (unicode_lower w) (arg_resolution a)) (arg_fps a)
             (if arg_depth a then ULTRA else NONE) (arg_serial a);
    py_print "ZED Camera initialized:"; py_print "  Model: ";
    py_print "  Serial: "; py_print "  Resolution: "; py_print "  Depth: " ].

(** A publisher socket is created: a port was given and [zmq] is there. *)
Definition publishing (a : args) (w : world) : bool :=
  Z.ltb 0 (arg_port a) && zmq_available w.

Definition bind_fails (a : args) (w : world) : bool :=
  publishing a w && negb (bind_ok w).

Definition server_calls (a : args) (w : world) : list call :=
  if Z.ltb 0 (arg_port a) then
    if zmq_available w then
      [zmq_Context; zmq_socket_PUB; zmq_bind (arg_port a)] ++
      (if bind_ok w then [py_print "ZMQ publisher started on port "] else [])
    else [py_print "Error: ZMQ not available. Install with: pip3 install pyzmq msgpack msgpack-numpy"]
  else [].

Definition writer_calls (a : args) (w : world) : list call :=
  match save_path a with
  | Some path =>
      [cv2_VideoWriter path (arg_fps a) (cam_width (cam w)) (cam_height (cam w));
       py_print "Recording to: "]
  | None => []
  end.

(** The object when the streaming loop starts (or, if the bind failed, when
    [close] runs). *)
Definition prepared (a : args) (w : world) : ZEDStreamer.t :=
  let s1 :=
    if publishing a w
    then set_zmq_socket (Some Socket) (set_zmq_context (Some Context) (constructed a w))
    else constructed a w in
  if bind_fails a w then s1
  else match save_path a with
       | Some _ => set_video_writer (Some VideoWriter) s1
       | None => s1
       end.

Definition main_end (a : args) (w : world) : outcome unit :=
  if bind_fails a w then Raise ZMQError
  else match loop_end (arg_display a) (arg_duration a) (t_start w) (ticks w) 0 (t_fps w) with
       | Unfinished => Unfinished
       | _ => Ret tt
       end.

Definition main_calls (a : args) (w : world) : list call :=
  init_calls a w ++ server_calls a w ++
  (if bind_fails a w then []
   else writer_calls a w ++
        run_calls (arg_display a) (arg_duration a) (t_start w) (t_fps w) (ticks w)
                  (prepared a w)) ++
  match main_end a w with
  | Unfinished => []
  | _ => close_calls (prepared a w)
  end.

Lemma close_calls_running b s : close_calls (set_running b s) = close_calls s.
Proof. reflexivity. Qed.

(** With a camera that opens, [main] ends as [main_end] says and makes the
    calls [main_calls], in that order. *)
Lemma main_eq a w :
  is_success (open_status (cam w)) = true →
  main a w = (main_end a w, main_calls a w).
Proof.
  intros Hopen. rewrite main_unfold. unfold __init__. rewrite Hopen.
  fold (constructed a w). fold (init_calls a w).
  unfold try_finally, main_body, main_calls, main_end, prepared, bind_fails,
    publishing, server_calls, writer_calls.
  (* the video writer, the loop and the shutdown, from the state reached *)
  assert (Htail : ∀ s l,
    try_finally
      (match save_path a with
       | Some path => start_video_writer path
       | None => ret tt
       end ;;;
       run (arg_display a) (arg_duration a) (t_start w) (t_fps w) (ticks w))%py
      close {| self := s; log := l |}
    = (match loop_end (arg_display a) (arg_duration a) (t_start w) (ticks w) 0 (t_fps w) with
       | Unfinished => Unfinished
       | _ => Ret tt
       end,
       let s' := match save_path a with
                 | Some _ => set_video_writer (Some VideoWriter) s
                 | None => s
                 end in
       {| self := set_running
                    (match loop_end (arg_display a) (arg_duration a) (t_start w)
                                    (ticks w) 0 (t_fps w) with
                     | Unfinished => true
                     | _ => false
                     end) s';
          log := l ++
                 match save_path a with
                 | Some path => [cv2_VideoWriter path (fps s) (width s) (height s);
                                 py_print "Recording to: "]
                 | None => []
                 end ++
                 run_calls (arg_display a) (arg_duration a) (t_start w) (t_fps w)
                           (ticks w) s' ++
                 match loop_end (arg_display a) (arg_duration a) (t_start w)
                                (ticks w) 0 (t_fps w) with
                 | Unfinished => []
                 | _ => close_calls s'
                 end |})).
  { intros s l. unfold try_finally. unfold bind at 1.
    destruct (save_path a) as [path|].
    - unfold start_video_writer.
      unfold bind at 1. cbn [get].
      unfold bind at 1. cbn [emit update modify self log].
      unfold bind at 1. cbn [emit update modify self log].
      cbn [emit update modify self log].
      rewrite run_eq.
      destruct (loop_end _ _ _ _ _ _) as [[]|e|];
        rewrite ?close_spec; cbn [self log fst snd]; rewrite ?close_calls_running;
        rewrite ?app_nil_r, <- ?app_assoc; reflexivity.
    - cbn [ret]. rewrite run_eq.
      destruct (loop_end _ _ _ _ _ _) as [[]|e|];
        rewrite ?close_spec; cbn [self log fst snd]; rewrite ?close_calls_running;
        rewrite ?app_nil_r, <- ?app_assoc; reflexivity. }
  unfold try_finally in Htail.
  destruct (Z.ltb 0 (arg_port a)); cbn [andb].
  - unfold start_zmq_server. destruct (zmq_available w); cbn [negb andb].
    + destruct (bind_ok w); cbn [negb].
      * unfold bind at 1 2 3 4 5 6 7 8. cbn [emit update modify self log ret].
        rewrite Htail. cbn zeta.
        destruct (save_path a), (loop_end _ _ _ _ _ _) as [[]|e|];
          cbn [self log]; rewrite <- ?app_assoc; reflexivity.
      * unfold bind. cbn [emit update modify self log ret raise].
        rewrite close_spec. cbn [self log].
        rewrite ?app_nil_r, <- ?app_assoc. reflexivity.
    + unfold bind at 1 2 3. cbn [emit update modify self log ret].
      rewrite Htail. cbn zeta.
      destruct (save_path a), (loop_end _ _ _ _ _ _) as [[]|e|];
        cbn [self log]; rewrite <- ?app_assoc; reflexivity.
  - unfold bind at 1. cbn [ret].
    rewrite Htail. cbn zeta.
    destruct (save_path a), (loop_end _ _ _ _ _ _) as [[]|e|];
      cbn [self log]; rewrite <- ?app_assoc; reflexivity.
Qed.
End ProducerMainCalls.


(** ** What the producer publishes, records and shows *)

Section ProducerCounts.
Import ZEDStreamer.

Definition is_zmq (c : call) : bool :=
  match c with
  | zmq_Context | zmq_socket_PUB | zmq_socket_SUB | zmq_setsockopt _
  | zmq_bind _ | zmq_connect _ _ | zmq_send _ | zmq_recv
  | zmq_socket_close | zmq_context_term => true
  | _ => false
  end.

Definition is_writer (c : call) : bool :=
  match c with
  | cv2_VideoWriter _ _ _ _ | cv2_writer_write _ | cv2_writer_release => true
  | _ => false
  end.

Definition is_grab (c : call) : bool :=
  match c with zed_grab => true | _ => false end.

(** The images retrieved by a pass: one if the grab succeeded. *)
Definition retrieved (duration : option Q) (start_time : Q) (tk : tick) : nat :=
  if duration_over duration start_time (t_loop tk) then 0%nat
  else one_if (is_success (grab_status (shot tk))).

Lemma count_calls_nil p : count_calls p [] = 0%nat.
Proof. reflexivity. Qed.

Lemma count_calls_cons p c l :
  count_calls p (c :: l) = (one_if (p c) + count_calls p l)%nat.
Proof. unfold count_calls. cbn. destruct (p c); reflexivity. Qed.

(** Counts the calls of a list written with [++], [::] and [if]. *)
Ltac count_out :=
  repeat first
    [ rewrite count_calls_app
    | rewrite count_calls_cons
    | rewrite count_calls_nil ];
  cbn [one_if is_send is_retrieve_image is_writer_write is_window is_zmq
       is_writer is_grab lifecycle Nat.add].

Lemma pass_calls_counts display duration start tk fc ft s :
  let calls := pass_calls display duration start tk fc ft s in
  count_calls is_retrieve_image calls = retrieved duration start tk ∧
  count_calls is_send calls
  = (if is_set (zmq_socket s) then retrieved duration start tk else 0%nat) ∧
  count_calls is_writer_write calls
  = (if is_set (video_writer s) then retrieved duration start tk else 0%nat) ∧
  (display = false → count_calls is_window calls = 0%nat) ∧
  Forall quiet calls ∧
  count_calls is_zmq calls = count_calls is_send calls.
Proof.
  unfold pass_calls, retrieved, frame_calls, grab_calls, publish_calls,
    write_calls, preview_calls, report_calls.
  destruct (duration_over duration start (t_loop tk));
    [cbn; destruct (is_set (zmq_socket s)), (is_set (video_writer s)); auto 10|].
  destruct (is_success (grab_status (shot tk)));
    [|cbn; destruct (is_set (zmq_socket s)), (is_set (video_writer s));
      repeat split; auto; repeat constructor].
  destruct (is_set (zmq_socket s)), (is_set (video_writer s)), (depth_on s),
    display, (quit_key (key tk)), (report_due tk ft);
    cbn; repeat split; auto; try discriminate; repeat constructor.
Qed.

Lemma loop_calls_counts display duration start ticks_ s :
  ∀ fc ft,
    let calls := loop_calls display duration start ticks_ fc ft s in
    count_calls is_send calls
    = (if is_set (zmq_socket s) then count_calls is_retrieve_image calls else 0%nat) ∧
    count_calls is_writer_write calls
    = (if is_set (video_writer s) then count_calls is_retrieve_image calls else 0%nat) ∧
    (display = false → count_calls is_window calls = 0%nat) ∧
    Forall quiet calls ∧
    count_calls is_zmq calls = count_calls is_send calls.
Proof.
  induction ticks_ as [|tk rest IH]; intros fc ft; cbn [loop_calls].
  - cbn. destruct (is_set (zmq_socket s)), (is_set (video_writer s)); auto 10.
  - destruct (interrupt tk).
    { cbn. destruct (is_set (zmq_socket s)), (is_set (video_writer s)); auto 10. }
    destruct (pass_calls_counts display duration start tk fc ft s)
      as (Pr & Ps & Pw & Pn & Pq & Pz).
    cbn zeta in *. rewrite !count_calls_app, Pr, Pw, Pz, Ps.
    destruct (pass_result display duration start tk fc ft) as [[[] fc'] ft'].
    + destruct (IH fc' ft') as (Is & Iw & In_ & Iq & Iz). cbn zeta in *.
      rewrite Iz, Is, Iw.
      destruct (is_set (zmq_socket s)), (is_set (video_writer s));
        (split; [|split; [|split; [|split]]]);
        try reflexivity; try (apply Forall_app; auto);
        intros Hd; rewrite Pn, In_ by exact Hd; reflexivity.
    + rewrite !count_calls_nil, !Nat.add_0_r.
      destruct (is_set (zmq_socket s)), (is_set (video_writer s));
        (split; [|split; [|split; [|split]]]);
        try reflexivity; try (apply Forall_app; auto);
        intros Hd; rewrite Pn by exact Hd; reflexivity.
Qed.

Lemma run_calls_counts display duration t0 t1 ticks_ s :
  let calls := run_calls display duration t0 t1 ticks_ s in
  count_calls is_send calls
  = (if is_set (zmq_socket s) then count_calls is_retrieve_image calls else 0%nat) ∧
  count_calls is_writer_write calls
  = (if is_set (video_writer s) then count_calls is_retrieve_image calls else 0%nat) ∧
  (display = false → count_calls is_window calls = 0%nat) ∧
  Forall quiet calls ∧
  count_calls is_zmq calls = count_calls is_send calls.
Proof.
  unfold run_calls. cbn zeta.
  destruct (loop_calls_counts display duration t0 ticks_ (set_running true s) 0 t1)
    as (Ls & Lw & Ln & Lq & Lz). cbn zeta in *. cbn [set_running zmq_socket video_writer] in *.
  assert (Hstop : ∀ p, (∀ line, p (py_print line) = false) →
            count_calls p (stopping_calls (loop_end display duration t0 ticks_ 0 t1)) = 0%nat).
  { intros p Hp. destruct (loop_end display duration t0 ticks_ 0 t1) as [|[]|];
      try reflexivity. cbn [stopping_calls]. rewrite count_calls_cons, Hp. reflexivity. }
  rewrite !count_calls_cons, !count_calls_app, !Hstop by reflexivity.
  cbn [one_if is_send is_retrieve_image is_writer_write is_window is_zmq Nat.add].
  rewrite !Nat.add_0_r, Lz, Ls, Lw.
  split; [|split; [|split; [|split]]]; try reflexivity; try exact Ln.
  constructor; [reflexivity|]. apply Forall_app. split; [exact Lq|].
  destruct (loop_end display duration t0 ticks_ 0 t1) as [|[]|]; repeat constructor.
Qed.
End ProducerCounts.


Section ProducerMainFacts.
Import ZEDStreamer.

Lemma init_calls_counts a w p :
  (∀ r f m sn, p (zed_open r f m sn) = false) →
  (∀ line, p (py_print line) = false) →
  count_calls p (init_calls a w) = 0%nat.
Proof.
  intros Ho Hp. unfold init_calls.
  rewrite !count_calls_cons, Ho, !Hp. reflexivity.
Qed.

Lemma close_calls_counts s p :
  p cv2_writer_release = false → p zmq_socket_close = false →
  p zmq_context_term = false → p zed_close = false →
  p cv2_destroyAllWindows = false → (∀ line, p (py_print line) = false) →
  count_calls p (close_calls s) = 0%nat.
Proof.
  intros H1 H2 H3 H4 H5 Hp. unfold close_calls.
  destruct (is_set (video_writer s)), (is_set (zmq_socket s)),
    (is_set (zmq_context s));
    cbn [app]; rewrite ?count_calls_cons, ?count_calls_nil, ?H1, ?H2, ?H3, ?H4, ?H5, ?Hp;
    reflexivity.
Qed.

Lemma server_calls_counts a w p :
  p zmq_Context = false → p zmq_socket_PUB = false →
  (∀ n, p (zmq_bind n) = false) → (∀ line, p (py_print line) = false) →
  count_calls p (server_calls a w) = 0%nat.
Proof.
  intros H1 H2 H3 Hp. unfold server_calls.
  destruct (Z.ltb 0 (arg_port a)), (zmq_available w), (bind_ok w);
    cbn [app]; rewrite ?count_calls_cons, ?count_calls_nil, ?H1, ?H2, ?H3, ?Hp;
    reflexivity.
Qed.

Lemma writer_calls_counts a w p :
  (∀ path r x y, p (cv2_VideoWriter path r x y) = false) →
  (∀ line, p (py_print line) = false) →
  count_calls p (writer_calls a w) = 0%nat.
Proof.
  intros H1 Hp. unfold writer_calls.
  destruct (save_path a);
    rewrite ?count_calls_cons, ?count_calls_nil, ?H1, ?Hp; reflexivity.
Qed.

(** The calls of [main] outside the streaming loop are none of the kind
    [p], when [p] selects calls made only for a frame. *)
Lemma main_calls_count a w p :
  (∀ c, p c = true → lifecycle c = false) →
  (∀ n, p (zmq_bind n) = false) →
  p cv2_destroyAllWindows = false → (∀ line, p (py_print line) = false) →
  count_calls p (main_calls a w)
  = (if bind_fails a w then 0%nat
     else count_calls p (run_calls (arg_display a) (arg_duration a) (t_start w)
                                   (t_fps w) (ticks w) (prepared a w))).
Proof.
  intros Hlife Hbind Hdestroy Hprint.
  assert (Hnot : ∀ c, lifecycle c = true → p c = false).
  { intros c Hc. destruct (p c) eqn:E; [|reflexivity].
    apply Hlife in E. congruence. }
  unfold main_calls. rewrite !count_calls_app.
  rewrite init_calls_counts by (intros; auto using Hnot).
  rewrite server_calls_counts by (intros; auto using Hnot).
  assert (Hclose : count_calls p match main_end a w with
                                 | Unfinished => []
                                 | _ => close_calls (prepared a w)
                                 end = 0%nat).
  { destruct (main_end a w); try reflexivity;
      apply close_calls_counts; auto using Hnot. }
  rewrite Hclose.
  destruct (bind_fails a w); [reflexivity|].
  rewrite count_calls_app, writer_calls_counts by (intros; auto using Hnot).
  lia.
Qed.

Lemma publishing_prepared a w :
  is_set (zmq_socket (prepared a w)) = publishing a w.
Proof.
  unfold prepared. destruct (publishing a w), (bind_fails a w), (save_path a);
    reflexivity.
Qed.

End ProducerMainFacts.



(** X2. Without a port ([--port 0] or less) or without [zmq] installed,
    [main] never touches ZeroMQ: no context, socket, bind, send, close or
    term call is made, whatever the camera delivers. *)
Theorem main_without_publisher (a : ZEDStreamer.args) (w : ZEDStreamer.world) :
  (ZEDStreamer.arg_port a ≤ 0)%Z ∨ ZEDStreamer.zmq_available w = false →
  count_calls is_zmq (ZEDStreamer.main a w).2 = 0%nat.
Proof.
  intros Hoff.
  assert (Hpub : publishing a w = false).
  { unfold publishing. destruct Hoff as [Hp|Hz].
    - apply Z.ltb_ge in Hp. rewrite Hp. reflexivity.
    - rewrite Hz. apply andb_false_r. }
  destruct (is_success (ZEDStreamer.open_status (ZEDStreamer.cam w))) eqn:Hopen.
  - rewrite (main_eq a w Hopen). cbn [snd].
    unfold main_calls, bind_fails. rewrite Hpub. cbn [andb].
    rewrite !count_calls_app.
    rewrite init_calls_counts by reflexivity.
    rewrite writer_calls_counts by reflexivity.
    assert (Hserver : count_calls is_zmq (server_calls a w) = 0%nat).
    { unfold server_calls, publishing in *.
      destruct (Z.ltb 0 (ZEDStreamer.arg_port a)); [|reflexivity].
      cbn [andb] in Hpub. rewrite Hpub. reflexivity. }
    assert (Hclose : ∀ r : outcome unit,
              count_calls is_zmq match r with
                                 | Unfinished => []
                                 | _ => close_calls (prepared a w)
                                 end = 0%nat).
    { intros r. unfold close_calls.
      rewrite publishing_prepared, Hpub.
      assert (Hctx : is_set (ZEDStreamer.zmq_context (prepared a w)) = false).
      { unfold prepared, bind_fails. rewrite Hpub. cbn [andb].
        destruct (ZEDStreamer.save_path a); reflexivity. }
      rewrite Hctx.
      destruct r, (is_set (ZEDStreamer.video_writer (prepared a w))); reflexivity. }
    rewrite Hserver, Hclose.
    assert (Hrun : count_calls is_zmq
              (run_calls (ZEDStreamer.arg_display a) (ZEDStreamer.arg_duration a)
                 (ZEDStreamer.t_start w) (ZEDStreamer.t_fps w) (ZEDStreamer.ticks w)
                 (prepared a w)) = 0%nat).
    { destruct (run_calls_counts (ZEDStreamer.arg_display a) (ZEDStreamer.arg_duration a)
              (ZEDStreamer.t_start w) (ZEDStreamer.t_fps w) (ZEDStreamer.ticks w)
              (prepared a w)) as (Hs & _ & _ & _ & Hz).
      cbn zeta in *. rewrite publishing_prepared, Hpub in Hs.
      rewrite Hz, Hs. reflexivity. }
    rewrite Hrun. reflexivity.
  - unfold ZEDStreamer.main, ZEDStreamer.__init__. rewrite Hopen. reflexivity.
Qed.

Lemma main_without_publisher_witness :
  count_calls is_zmq
    (ZEDStreamer.main
       {| ZEDStreamer.arg_resolution := of_ascii "vga"; ZEDStreamer.arg_fps := 15;
          ZEDStreamer.arg_depth := true; ZEDStreamer.arg_serial := None;
          ZEDStreamer.arg_port := 0; ZEDStreamer.arg_display := false;
          ZEDStreamer.arg_save := None; ZEDStreamer.arg_duration := None |}
       (sample_world SUCCESS)).2 = 0%nat.
Proof.
  apply main_without_publisher. left. cbn. lia.
Defined.




Definition recording_args : ZEDStreamer.args :=
  {| ZEDStreamer.arg_resolution := of_ascii "1080p"; ZEDStreamer.arg_fps := 30;
     ZEDStreamer.arg_depth := true; ZEDStreamer.arg_serial := Some 1234;
     ZEDStreamer.arg_port := 5556; ZEDStreamer.arg_display := true;
     ZEDStreamer.arg_save := Some "out.mp4"; ZEDStreamer.arg_duration := None |}.



(** X4. Without [--display] the producer opens no window and reads no
    key: no [imshow] and no [waitKey] call is made, whatever the camera
    delivers and however long it streams. *)
Theorem main_without_display (a : ZEDStreamer.args) (w : ZEDStreamer.world) :
  ZEDStreamer.arg_display a = false →
  count_calls is_window (ZEDStreamer.main a w).2 = 0%nat.
Proof.
  intros Hd.
  destruct (is_success (ZEDStreamer.open_status (ZEDStreamer.cam w))) eqn:Hopen.
  - rewrite (main_eq a w Hopen). cbn [snd].
    rewrite main_calls_count by (try reflexivity; intros []; cbn; congruence).
    destruct (bind_fails a w); [reflexivity|].
    apply (run_calls_counts (ZEDStreamer.arg_display a)). exact Hd.
  - unfold ZEDStreamer.main, ZEDStreamer.__init__. rewrite Hopen. reflexivity.
Qed.

Lemma main_without_display_witness :
  count_calls is_window (ZEDStreamer.main sample_args (sample_world SUCCESS)).2 = 0%nat.
Proof. apply main_without_display. reflexivity. Defined.

(** X5. A bind that fails aborts [main] before anything is streamed: it
    ends with the bind error after creating the context and the socket and
    trying to bind, opens no video file even when one was asked for, grabs no
    frame, and its [finally] closes the socket, terminates the context and
    closes the camera. *)
Theorem main_bind_failure (a : ZEDStreamer.args) (w : ZEDStreamer.world) :
  is_success (ZEDStreamer.open_status (ZEDStreamer.cam w)) = true →
  (0 < ZEDStreamer.arg_port a)%Z →
  ZEDStreamer.zmq_available w = true →
  ZEDStreamer.bind_ok w = false →
  ZEDStreamer.main a w
  = (Raise ZMQError,
     init_calls a w ++
     [ zmq_Context; zmq_socket_PUB; zmq_bind (ZEDStreamer.arg_port a);
       zmq_socket_close; zmq_context_term; zed_close;
       cv2_destroyAllWindows; py_print "ZED camera closed" ]).
Proof.
  intros Hopen Hport Hzmq Hbind. rewrite (main_eq a w Hopen).
  apply Z.ltb_lt in Hport.
  unfold main_calls, main_end, bind_fails, publishing, server_calls, prepared,
    bind_fails, publishing.
  rewrite Hport, Hzmq, Hbind. reflexivity.
Qed.

Definition failing_bind_world : ZEDStreamer.world :=
  {| ZEDStreamer.unicode_lower := fun c => [c];
     ZEDStreamer.cam := sample_camera;
     ZEDStreamer.zmq_available := true;
     ZEDStreamer.bind_ok := false;
     ZEDStreamer.t_start := 0%Q;
     ZEDStreamer.t_fps := 0%Q;
     ZEDStreamer.ticks := [sample_tick false; sample_tick true] |}.

Lemma main_bind_failure_witness :
  (ZEDStreamer.main recording_args failing_bind_world).1 = Raise ZMQError ∧
  count_calls is_grab (ZEDStreamer.main recording_args failing_bind_world).2 = 0%nat.
Proof.
  rewrite (main_bind_failure recording_args failing_bind_world);
    [split; reflexivity | reflexivity | reflexivity | reflexivity | reflexivity].
Defined.

(** X7. The duration limit.  [--duration] ends the loop exactly at a pass
    whose clock reading is more than [duration] after the start, provided the
    duration is not zero: a duration of 0, like none, never ends it.  A pass
    past the limit grabs nothing: [run] returns having only announced the
    start. *)
Theorem duration_limit :
  (∀ duration t0 now,
     ZEDStreamer.duration_over duration t0 now = true ↔
     ∃ d, duration = Some d ∧ ¬ (d == 0)%Q ∧ (d < now - t0)%Q) ∧
  (∀ display d t0 t1 tk rest s l,
     ¬ (d == 0)%Q → (d < ZEDStreamer.t_loop tk - t0)%Q →
     ZEDStreamer.interrupt tk = false →
     ZEDStreamer.run display (Some d) t0 t1 (tk :: rest)
       {| ZEDStreamer.self := s; ZEDStreamer.log := l |}
     = (Ret tt,
        {| ZEDStreamer.self := ZEDStreamer.set_running false s;
           ZEDStreamer.log := l ++ [py_print ZEDStreamer.started] |})).
Proof.
  assert (Hover : ∀ duration t0 now,
     ZEDStreamer.duration_over duration t0 now = true ↔
     ∃ d, duration = Some d ∧ ¬ (d == 0)%Q ∧ (d < now - t0)%Q).
  { intros duration t0 now. unfold ZEDStreamer.duration_over.
    destruct duration as [d|].
    - rewrite andb_true_iff, !negb_true_iff. split.
      + intros [Hz Hle]. exists d. split; [reflexivity|]. split.
        * apply Qeq_bool_neq. exact Hz.
        * apply Qnot_le_lt. intros H. apply Qle_bool_iff in H. congruence.
      + intros (d' & [= <-] & Hz & Hlt). split.
        * destruct (Qeq_bool d 0) eqn:E; [|reflexivity].
          apply Qeq_bool_eq in E. contradiction.
        * destruct (Qle_bool (now - t0) d) eqn:E; [|reflexivity].
          apply Qle_bool_iff in E. lra.
    - split; [discriminate|]. intros (d & H & _). discriminate H. }
  split; [exact Hover|].
  intros display d t0 t1 tk rest s l Hz Hlt Hint.
  rewrite run_eq. unfold run_calls. cbn [loop_end loop_calls].
  rewrite Hint. unfold pass_result, pass_calls.
  rewrite (proj2 (Hover (Some d) t0 (ZEDStreamer.t_loop tk)))
    by (exists d; auto).
  cbn. reflexivity.
Qed.

Lemma duration_limit_witness :
  ZEDStreamer.run false (Some 10%Q) 0%Q 0%Q [sample_tick false]
    {| ZEDStreamer.self := sample_streamer false; ZEDStreamer.log := [] |}
  = (Unfinished,
     {| ZEDStreamer.self := ZEDStreamer.set_running true (sample_streamer false);
        ZEDStreamer.log :=
          [py_print ZEDStreamer.started; zed_grab; zed_retrieve_image] |}) ∧
  ZEDStreamer.run false (Some 10%Q) 0%Q 0%Q
    [{| ZEDStreamer.interrupt := false; ZEDStreamer.t_loop := 11%Q;
        ZEDStreamer.shot := sample_grab; ZEDStreamer.key := (-1);
        ZEDStreamer.t_fps_check := 11%Q; ZEDStreamer.t_fps_now := 11%Q;
        ZEDStreamer.t_fps_reset := 11%Q |}]
    {| ZEDStreamer.self := sample_streamer false; ZEDStreamer.log := [] |}
  = (Ret tt,
     {| ZEDStreamer.self := ZEDStreamer.set_running false (sample_streamer false);
        ZEDStreamer.log := [] ++ [py_print ZEDStreamer.started] |}).
Proof.
  split; [reflexivity|].
  apply (proj2 duration_limit); [intros H; discriminate H | reflexivity | reflexivity].
Defined.


(** ** The image handed on by the producer *)

(** The camera's data without its fourth channel, [image_data[:, :, :3]]. *)
Definition drop_alpha (image_data : image) : image :=
  List.map (List.map (List.firstn 3)) image_data.

Lemma reverse_channels_involutive (a : image) :
  reverse_channels (reverse_channels a) = a.
Proof.
  unfold reverse_channels. rewrite List.map_map.
  rewrite <- (List.map_id a) at 2. apply List.map_ext. intros row.
  rewrite List.map_map. rewrite <- (List.map_id row) at 2.
  apply List.map_ext. intros px. apply List.rev_involutive.
Qed.

Lemma dims_map {A B} (f : list A → list B) (rows : list (list A)) :
  (∀ r, length (f r) = length r) → dims (List.map f rows) = dims rows.
Proof.
  intros Hf. unfold dims. rewrite List.length_map.
  destruct rows as [|r rows]; cbn; [reflexivity|]. rewrite Hf. reflexivity.
Qed.

(** X8. The conversion in [grab_frame] keeps the rows and columns of the
    camera image and turns each pixel's first three channels around: the
    image has the camera's height and width, the pixel at row [i], column
    [j] is the reverse of the first three channels of the camera's pixel
    there, so a BGRA pixel [b, g, r, a] becomes [r, g, b]. *)
Theorem bgra_to_rgb_pixels (image_data : image) :
  dims (bgra_to_rgb image_data) = dims image_data ∧
  (∀ i j row px,
     List.nth_error image_data i = Some row →
     List.nth_error row j = Some px →
     ∃ row', List.nth_error (bgra_to_rgb image_data) i = Some row' ∧
             length row' = length row ∧
             List.nth_error row' j = Some (List.rev (List.firstn 3 px))) ∧
  (∀ b g r a : Z, List.rev (List.firstn 3 [b; g; r; a]) = [r; g; b]).
Proof.
  split; [|split].
  - unfold bgra_to_rgb, reverse_channels.
    rewrite !dims_map; [reflexivity|..]; intros r; apply List.length_map.
  - intros i j row px Hrow Hpx.
    exists (List.map (@List.rev Z) (List.map (List.firstn 3) row)).
    unfold bgra_to_rgb, reverse_channels.
    split; [|split].
    + rewrite !List.nth_error_map, Hrow. reflexivity.
    + rewrite !List.length_map. reflexivity.
    + rewrite !List.nth_error_map, Hpx. reflexivity.
  - reflexivity.
Qed.

Lemma bgra_to_rgb_pixels_witness :
  ∃ row', List.nth_error (bgra_to_rgb [[[10; 20; 30; 255]; [1; 2; 3; 4]]]) 0 = Some row' ∧
          length row' = 2%nat ∧
          List.nth_error row' 1 = Some [3; 2; 1].
Proof.
  apply (proj1 (proj2 (bgra_to_rgb_pixels [[[10; 20; 30; 255]; [1; 2; 3; 4]]]))
           0%nat 1%nat [[10; 20; 30; 255]; [1; 2; 3; 4]] [1; 2; 3; 4]);
    reflexivity.
Defined.

(** X9. What one pass hands on.  In a pass that is not interrupted, not
    past the duration and whose grab succeeds: with the publisher bound, the
    message sent unpacks to a dictionary whose image is the RGB conversion
    of the camera data, whose timestamp is the clock reading taken in
    [grab_frame], and whose depth is the camera's depth map as delivered
    when depth is on and absent otherwise; with the video writer open, the
    frame written is the camera's own data without the fourth channel, in
    the camera's channel order. *)
Theorem pass_hands_on_camera_data
    (display : bool) (duration : option Q) (start : Q) (tk : ZEDStreamer.tick)
    (fc : Z) (ft : Q) (st : ZEDStreamer.state) :
  ZEDStreamer.interrupt tk = false →
  ZEDStreamer.duration_over duration start (ZEDStreamer.t_loop tk) = false →
  is_success (ZEDStreamer.grab_status (ZEDStreamer.shot tk)) = true →
  let g := ZEDStreamer.shot tk in
  let s := ZEDStreamer.self st in
  let after := (ZEDStreamer.iteration display duration start tk fc ft st).2 in
  (is_set (ZEDStreamer.zmq_socket s) = true →
     ∃ message : gmap string pyval,
       zmq_send (packb message) ∈ ZEDStreamer.log after ∧
       unpackb (packb message) = Ret (VDict message) ∧
       message !! "image" = Some (VImage (bgra_to_rgb (ZEDStreamer.image_data g))) ∧
       message !! "timestamp" = Some (VFloat (ZEDStreamer.t_stamp g)) ∧
       message !! "depth"
       = (if ZEDStreamer.enable_depth s && is_set (ZEDStreamer.depth_map s)
          then Some (VDepth (ZEDStreamer.depth_data g)) else None)) ∧
  (is_set (ZEDStreamer.video_writer s) = true →
     cv2_writer_write (drop_alpha (ZEDStreamer.image_data g)) ∈ ZEDStreamer.log after).
Proof.
  intros Hint Hdur Hok g s after. destruct st as [s0 l].
  subst after g s. cbn [ZEDStreamer.self].
  rewrite (iteration_eq display duration start tk fc ft s0 l Hint). cbn [snd ZEDStreamer.log].
  unfold pass_calls, frame_calls. rewrite Hdur, Hok.
  split.
  - intros Hs. exists (frame_of (ZEDStreamer.shot tk) s0).
    destruct (frame_of_lookup (ZEDStreamer.shot tk) s0) as (Lt & Li & Ld).
    split; [|split; [reflexivity|split; [exact Li|split; [exact Lt|exact Ld]]]].
    unfold publish_calls. rewrite Hs.
    rewrite !elem_of_app. right. right. left. left.
  - intros Hw. unfold write_calls. rewrite Hw.
    rewrite !elem_of_app. right. right. right. left.
    unfold bgra_to_rgb. rewrite reverse_channels_involutive. left.
Qed.

Lemma pass_hands_on_camera_data_witness :
  cv2_writer_write [[[10; 20; 30]]] ∈
    ZEDStreamer.log
      (ZEDStreamer.iteration false None 0%Q (sample_tick false) 0 0%Q
         {| ZEDStreamer.self :=
              ZEDStreamer.set_video_writer (Some ZEDStreamer.VideoWriter)
                (sample_streamer false);
            ZEDStreamer.log := [] |}).2.
Proof.
  apply (proj2 (pass_hands_on_camera_data false None 0%Q (sample_tick false) 0 0%Q
                  {| ZEDStreamer.self :=
                       ZEDStreamer.set_video_writer (Some ZEDStreamer.VideoWriter)
                         (sample_streamer false);
                     ZEDStreamer.log := [] |} eq_refl eq_refl eq_refl)).
  reflexivity.
Defined.


(** * Further properties of the viewer *)

(** ** Relations kept by every step

    [steady R m]: whatever state [m] starts in and however it ends, the
    state it leaves is [R]-related to the state it started in. *)

Definition steady {S A} (R : S → S → Prop) (m : M S A) : Prop :=
  ∀ st, R st (m st).2.

Section Steady.
Context {S : Type} (R : S → S → Prop) {R_preorder : PreOrder R}.

Lemma steady_ret {A} (a : A) : steady R (ret a).
Proof. intros st. reflexivity. Qed.

Lemma steady_raise {A} e : steady R (@raise S A e).
Proof. intros st. reflexivity. Qed.

Lemma steady_unfinished {A} : steady R (@unfinished S A).
Proof. intros st. reflexivity. Qed.

Lemma steady_get : steady R (@get S).
Proof. intros st. reflexivity. Qed.

Lemma steady_lift {A} (r : outcome A) : steady R (@lift S A r).
Proof. intros st. reflexivity. Qed.

Lemma steady_modify f : (∀ st, R st (f st)) → steady R (modify f).
Proof. intros H st. apply H. Qed.

Lemma steady_bind {A B} (m : M S A) (k : A → M S B) :
  steady R m → (∀ a, steady R (k a)) → steady R (bind m k).
Proof.
  intros Hm Hk st. unfold bind. specialize (Hm st).
  destruct (m st) as [[a|e|] st1]; cbn in *; try exact Hm.
  etransitivity; [exact Hm | apply Hk].
Qed.

(** After [get] the continuation may be studied at the state read. *)
Lemma steady_bind_get {B} (k : S → M S B) :
  (∀ st, R st (k st st).2) → steady R (bind get k).
Proof. intros H st. apply H. Qed.

Lemma steady_try_except {A} (body handler : M S A) catches :
  steady R body → steady R handler → steady R (try_except body catches handler).
Proof.
  intros Hb Hh st. unfold try_except. specialize (Hb st).
  destruct (body st) as [[a|e|] st1]; cbn in *; try exact Hb.
  destruct (catches e); cbn; [|exact Hb].
  etransitivity; [exact Hb | apply Hh].
Qed.

Lemma steady_try_finally {A} (body : M S A) (cleanup : M S unit) :
  steady R body → steady R cleanup → steady R (try_finally body cleanup).
Proof.
  intros Hb Hc st. unfold try_finally. specialize (Hb st).
  destruct (body st) as [[a|e|] st1]; cbn in *; try exact Hb;
    specialize (Hc st1); destruct (cleanup st1) as [[u|e'|] st2]; cbn in *;
    (etransitivity; [exact Hb | exact Hc]).
Qed.

Lemma steady_for_each {A} (l : list A) (body : A → M S unit) :
  (∀ x, steady R (body x)) → steady R (for_each l body).
Proof.
  intros Hbody. induction l as [|x l IH]; cbn [for_each].
  - apply steady_ret.
  - apply steady_bind; [apply Hbody | intros _; exact IH].
Qed.

Lemma steady_getitem d key_ : steady R (getitem d key_).
Proof. unfold getitem. destruct (d !! key_); [apply steady_ret|apply steady_raise]. Qed.
End Steady.

Ltac steady_side :=
  lazymatch goal with
  | |- PreOrder _ => exact _
  | _ => idtac
  end.

Ltac steady_step :=
  lazymatch goal with
  | |- steady _ (bind _ _) => apply steady_bind; steady_side; [ | intros ]
  | |- steady _ (ret _) => apply steady_ret; steady_side
  | |- steady _ (raise _) => apply steady_raise; steady_side
  | |- steady _ unfinished => apply steady_unfinished; steady_side
  | |- steady _ get => apply steady_get; steady_side
  | |- steady _ (lift _) => apply steady_lift; steady_side
  | |- steady _ (getitem _ _) => apply steady_getitem; steady_side
  | |- steady _ (CameraViewer.emit _) => apply steady_modify; steady_side; intros
  | |- steady _ (CameraViewer.update _) => apply steady_modify; steady_side; intros
  | |- steady _ (try_except _ _ _) => apply steady_try_except; steady_side
  | |- steady _ (for_each _ _) => apply steady_for_each; steady_side; intros
  | |- steady _ (if _ then _ else _) => case_match
  | |- steady _ (match _ with _ => _ end) => case_match
  end.

(** The log grew by calls that neither create nor release a resource. *)
Definition grew_quietly (st st' : CameraViewer.state) : Prop :=
  ∃ extra, CameraViewer.log st' = CameraViewer.log st ++ extra ∧ Forall quiet extra.

#[local] Instance grew_quietly_preorder : PreOrder grew_quietly.
Proof.
  split.
  - intros st. exists []. rewrite app_nil_r. auto.
  - intros st1 st2 st3 (e1 & L1 & Q1) (e2 & L2 & Q2).
    exists (e1 ++ e2). rewrite L2, L1, app_assoc. split; [reflexivity|].
    apply Forall_app; auto.
Qed.

Lemma grew_quietly_emit c (st : CameraViewer.state) :
  lifecycle c = false →
  grew_quietly st {| CameraViewer.self := CameraViewer.self st;
                     CameraViewer.log := CameraViewer.log st ++ [c] |}.
Proof. intros Hc. exists [c]. split; [reflexivity|]. repeat constructor. exact Hc. Qed.

Lemma grew_quietly_update f (st : CameraViewer.state) :
  grew_quietly st {| CameraViewer.self := f (CameraViewer.self st);
                     CameraViewer.log := CameraViewer.log st |}.
Proof. exists []. cbn. rewrite app_nil_r. auto. Qed.

Ltac quietly :=
  repeat steady_step;
  first [ apply grew_quietly_emit; reflexivity | apply grew_quietly_update ].

Section ViewerQuiet.
Import CameraViewer.
Variable b64decode : string → option (list Z).
Variable imdecode : list Z → option image.

Lemma receive_frame_quietly r now : steady grew_quietly (receive_frame r now).
Proof. unfold receive_frame. quietly. Qed.

Lemma show_camera_quietly fps_ timestamps tk entry :
  steady grew_quietly (show_camera b64decode imdecode fps_ timestamps tk entry).
Proof.
  unfold show_camera, decode_image, timestamp_of. quietly.
Qed.

Lemma viewer_iteration_quietly tk :
  steady grew_quietly (iteration b64decode imdecode tk).
Proof.
  unfold iteration, dict_get, get_fps, items.
  repeat first [ apply receive_frame_quietly | apply show_camera_quietly | steady_step ];
    first [ apply grew_quietly_emit; reflexivity | apply grew_quietly_update ].
Qed.

Lemma viewer_loop_quietly ticks_ : steady grew_quietly (loop b64decode imdecode ticks_).
Proof.
  induction ticks_ as [|tk rest IH]; cbn [loop].
  - steady_step.
  - apply steady_bind; steady_side; [apply viewer_iteration_quietly|].
    intros []; [exact IH | steady_step].
Qed.

Lemma viewer_run_quietly ticks_ : steady grew_quietly (run b64decode imdecode ticks_).
Proof.
  unfold run.
  repeat first [ apply viewer_loop_quietly | steady_step ];
    first [ apply grew_quietly_emit; reflexivity | apply grew_quietly_update ].
Qed.
End ViewerQuiet.


Lemma settled_lift {S A} (r : outcome A) : r ≠ Unfinished → settled (@lift S A r).
Proof. intros H st. exact H. Qed.

Lemma settled_for_each {S A} (l : list A) (body : A → M S unit) :
  (∀ x, settled (body x)) → settled (for_each l body).
Proof.
  intros Hbody. induction l as [|x l IH]; cbn [for_each].
  - apply settled_ret.
  - apply settled_bind; [apply Hbody | intros _; exact IH].
Qed.

Ltac viewer_settled_step :=
  lazymatch goal with
  | |- settled (bind _ _) => apply settled_bind; [ | intros ]
  | |- settled (ret _) => apply settled_ret
  | |- settled (raise _) => apply settled_raise
  | |- settled get => apply settled_get
  | |- settled (getitem _ _) => apply settled_getitem
  | |- settled (CameraViewer.emit _) => apply settled_modify
  | |- settled (CameraViewer.update _) => apply settled_modify
  | |- settled (try_except _ _ _) => apply settled_try_except
  | |- settled (for_each _ _) => apply settled_for_each; intros
  | |- settled (if _ then _ else _) => case_match
  | |- settled (match _ with _ => _ end) => case_match
  end.

Definition is_sub_socket (c : call) : bool :=
  match c with zmq_socket_SUB => true | _ => false end.

Section ViewerMain.
Import CameraViewer.
Variable b64decode : string → option (list Z).
Variable imdecode : list Z → option image.

Definition viewer_close_calls : list call :=
  [zmq_socket_close; zmq_context_term; cv2_destroyAllWindows; py_print "Viewer closed"].

Lemma viewer_close_spec st :
  close st = (Ret tt, {| self := self st; log := log st ++ viewer_close_calls |}).
Proof.
  unfold close, viewer_close_calls, bind, emit, modify. cbn.
  rewrite <- !app_assoc. reflexivity.
Qed.

Lemma fps_of_settled h : fps_of h ≠ Unfinished.
Proof.
  unfold fps_of. destruct (length h <? 2)%nat; [discriminate|].
  destruct (Qeq_bool _ _); discriminate.
Qed.

Lemma viewer_iteration_settled tk : settled (iteration b64decode imdecode tk).
Proof.
  unfold iteration, receive_frame, dict_get, get_fps, items, show_camera,
    decode_image, timestamp_of.
  repeat first
    [ viewer_settled_step
    | apply settled_lift; first [apply fps_of_settled | destruct p; discriminate] ].
Qed.

Lemma viewer_iteration_interrupted tk st :
  interrupt tk = true →
  iteration b64decode imdecode tk st = (Raise KeyboardInterrupt, st).
Proof. intros H. unfold iteration. rewrite H. reflexivity. Qed.

Lemma viewer_loop_settled ticks_ :
  Exists (fun tk => interrupt tk = true) ticks_ →
  settled (loop b64decode imdecode ticks_).
Proof.
  induction ticks_ as [|tk rest IH]; intros Hex.
  - apply Exists_nil in Hex. contradiction.
  - cbn [loop]. destruct (interrupt tk) eqn:Hi.
    + intros st. unfold bind. rewrite (viewer_iteration_interrupted _ _ Hi). discriminate.
    + apply Exists_cons in Hex as [Hex|Hex]; [congruence|].
      apply settled_bind; [apply viewer_iteration_settled|].
      intros []; [apply IH; exact Hex | apply settled_ret].
Qed.

(** What [main] runs inside its [try]. *)
Definition viewer_body (a : args) (ticks_ : list tick) : M state unit :=
  (connect ;;;
   (when (arg_save a) then enable_save (arg_save_dir a)) ;;;
   run b64decode imdecode ticks_)%py.

Lemma viewer_body_quietly a ticks_ : steady grew_quietly (viewer_body a ticks_).
Proof.
  unfold viewer_body, connect, enable_save.
  repeat first [ apply viewer_run_quietly | steady_step ];
    first [ apply grew_quietly_emit; reflexivity
          | exists []; cbn; rewrite app_nil_r; split; [reflexivity|constructor] ].
Qed.

Lemma viewer_body_settled a ticks_ :
  Exists (fun tk => interrupt tk = true) ticks_ → settled (viewer_body a ticks_).
Proof.
  intros Hex. unfold viewer_body, connect, enable_save, run.
  repeat first [ apply (viewer_loop_settled _ Hex) | viewer_settled_step ].
Qed.
End ViewerMain.

(** X10. The viewer's shutdown.  [main] of the viewer comes to an end once
    it is interrupted; whenever it has come to an end, by [q], by the
    interrupt or by an exception of a pass, the last thing it did was one
    [close]: socket closed, context terminated, windows destroyed, each
    exactly once, for the one context and the one socket the constructor
    created.  While it is still viewing, nothing has been released. *)
Theorem viewer_main_releases_once
    (b64decode : string → option (list Z)) (imdecode : list Z → option image)
    (a : CameraViewer.args) (t_init : Q) (ticks_ : list CameraViewer.tick) :
  let result := CameraViewer.main b64decode imdecode a t_init ticks_ in
  (Exists (fun tk => CameraViewer.interrupt tk = true) ticks_ → result.1 ≠ Unfinished) ∧
  (result.1 ≠ Unfinished →
     ∃ before, result.2 = before ++ viewer_close_calls ∧
       count_calls is_context_open before = 1%nat ∧
       count_calls is_sub_socket before = 1%nat ∧
       count_calls is_socket_close before = 0%nat ∧
       count_calls is_context_term before = 0%nat) ∧
  (result.1 = Unfinished →
     count_calls is_socket_close result.2 = 0%nat ∧
     count_calls is_context_term result.2 = 0%nat).
Proof.
  cbn zeta. unfold CameraViewer.main. fold (viewer_body b64decode imdecode a ticks_).
  set (st0 := CameraViewer.__init__ (CameraViewer.arg_ip a) (CameraViewer.arg_port a) t_init).
  pose proof (viewer_body_quietly b64decode imdecode a ticks_ st0) as (extra & Hlog & Hq).
  assert (Hcount : ∀ p, (∀ c, p c = true → lifecycle c = true) →
            count_calls p (CameraViewer.log (viewer_body b64decode imdecode a ticks_ st0).2)
            = count_calls p (CameraViewer.log st0)).
  { intros p Hp. rewrite Hlog, count_calls_app, (count_calls_quiet p extra Hp Hq). lia. }
  split; [|split].
  - intros Hex.
    pose proof (viewer_body_settled b64decode imdecode a ticks_ Hex st0) as Hb.
    unfold try_finally.
    destruct (viewer_body b64decode imdecode a ticks_ st0) as [[u|e|] st1];
      cbn in Hb; try contradiction; rewrite viewer_close_spec; discriminate.
  - unfold try_finally.
    destruct (viewer_body b64decode imdecode a ticks_ st0) as [[u|e|] st1] eqn:Hbody;
      cbn [snd] in Hcount; rewrite ?viewer_close_spec; cbn [fst snd CameraViewer.log];
      intros Hfin; try contradiction;
      (exists (CameraViewer.log st1); split; [reflexivity|]);
      rewrite !Hcount by (intros []; cbn; congruence); repeat split.
  - unfold try_finally.
    destruct (viewer_body b64decode imdecode a ticks_ st0) as [[u|e|] st1] eqn:Hbody;
      cbn [snd] in Hcount; rewrite ?viewer_close_spec; cbn [fst snd CameraViewer.log];
      intros Hfin; try discriminate Hfin.
    rewrite !Hcount by (intros []; cbn; congruence). split; reflexivity.
Qed.

Definition viewer_args : CameraViewer.args :=
  {| CameraViewer.arg_ip := "192.168.123.164"; CameraViewer.arg_port := 5555;
     CameraViewer.arg_save := false; CameraViewer.arg_save_dir := "./captured_frames" |}.

Definition timeout_tick (stop : bool) : CameraViewer.tick :=
  {| CameraViewer.interrupt := stop; CameraViewer.arrival := CameraViewer.Again;
     CameraViewer.t_recv := 0%Q; CameraViewer.t_latency := fun _ => 0%Q;
     CameraViewer.key := (-1) |}.

Lemma viewer_main_releases_once_witness :
  (CameraViewer.main (fun _ => None) (fun _ => None) viewer_args 0%Q
     [timeout_tick false; timeout_tick true]).1 ≠ Unfinished.
Proof.
  apply (proj1 (viewer_main_releases_once (fun _ => None) (fun _ => None) viewer_args 0%Q
                  [timeout_tick false; timeout_tick true])).
  right. left. reflexivity.
Defined.


(** ** Passes of the viewer that show nothing *)

Definition is_waitKey (c : call) : bool :=
  match c with cv2_waitKey => true | _ => false end.

(** A pass with nothing to show: the receive timed out, or the message has
    no ['images'] entry or a falsy one (an empty dictionary, [None]). *)
Definition idle (tk : CameraViewer.tick) : Prop :=
  CameraViewer.interrupt tk = false ∧
  (CameraViewer.arrival tk = CameraViewer.Again ∨
   ∃ d : gmap string pyval,
     CameraViewer.arrival tk = CameraViewer.Message (packb d) ∧
     truthy (default (VDict ∅) (d !! "images")) = false).

Section ViewerIdle.
Import CameraViewer.
Variable b64decode : string → option (list Z).
Variable imdecode : list Z → option image.

(** What an idle pass leaves: the loop goes on, [frame_count], the save
    settings and the address are untouched, and the log grew by the
    receive and one printed line. *)
Definition idled (st st' : state) : Prop :=
  frame_count (self st') = frame_count (self st) ∧
  save_frames (self st') = save_frames (self st) ∧
  save_dir (self st') = save_dir (self st) ∧
  ∃ line, log st' = log st ++ [zmq_recv; py_print line].

Lemma idle_iteration tk st :
  idle tk →
  ∃ st', iteration b64decode imdecode tk st = (Ret Continue, st') ∧ idled st st'.
Proof.
  intros [Hint [Harr|(d & Harr & Hfalsy)]]; unfold iteration; rewrite Hint, Harr.
  - eexists. split; [reflexivity|]. repeat split. cbn.
    eexists. rewrite <- app_assoc. reflexivity.
  - unfold receive_frame, dict_get, bind, emit, update, modify, lift, ret.
    cbn. rewrite Hfalsy. cbn.
    eexists. split; [reflexivity|]. repeat split. cbn.
    eexists. rewrite <- app_assoc. reflexivity.
Qed.

Lemma idle_loop ticks_ :
  Forall idle ticks_ →
  ∀ st, ∃ st' extra,
    loop b64decode imdecode ticks_ st = (Unfinished, st') ∧
    frame_count (self st') = frame_count (self st) ∧
    log st' = log st ++ extra ∧
    count_calls is_recv extra = length ticks_ ∧
    count_calls is_waitKey extra = 0%nat ∧
    count_calls is_window extra = 0%nat.
Proof.
  induction 1 as [|tk rest Htk _ IH]; intros st; cbn [loop].
  - exists st, []. rewrite app_nil_r. auto 10.
  - destruct (idle_iteration tk st Htk) as (st1 & Hit & Hfc & _ & _ & line & Hlog).
    destruct (IH st1) as (st' & extra & Hloop & Hfc' & Hlog' & Cr & Ck & Cw).
    exists st', ([zmq_recv; py_print line] ++ extra).
    unfold bind. rewrite Hit, Hloop.
    split; [reflexivity|]. split; [congruence|].
    split; [rewrite Hlog', Hlog, <- app_assoc; reflexivity|].
    rewrite !count_calls_app, Cr, Ck, Cw. cbn. auto.
Qed.
End ViewerIdle.

(** X11. The viewer waits through passes with nothing to show.  While
    the receive times out, or messages arrive whose ['images'] entry is
    missing or empty, [run] does not come to an end and raises nothing: each
    pass makes one receive attempt, no window is shown, [frame_count] stays,
    and the keyboard is not read at all, so [q] cannot end the viewer
    during such passes. *)
Theorem viewer_waits_when_idle
    (b64decode : string → option (list Z)) (imdecode : list Z → option image)
    (ticks_ : list CameraViewer.tick) (st : CameraViewer.state) :
  Forall idle ticks_ →
  ∃ st' extra,
    CameraViewer.run b64decode imdecode ticks_ st = (Unfinished, st') ∧
    CameraViewer.frame_count (CameraViewer.self st')
    = CameraViewer.frame_count (CameraViewer.self st) ∧
    CameraViewer.log st' = CameraViewer.log st ++ extra ∧
    count_calls is_recv extra = length ticks_ ∧
    count_calls is_waitKey extra = 0%nat ∧
    count_calls is_window extra = 0%nat.
Proof.
  intros Hidle. unfold CameraViewer.run, try_except.
  unfold bind at 1 2 3 4 5. cbn [CameraViewer.emit modify].
  match goal with
  | |- context [CameraViewer.loop _ _ _ ?s] =>
      destruct (idle_loop b64decode imdecode ticks_ Hidle s)
        as (st' & extra & Hloop & Hfc & Hlog & Cr & Ck & Cw)
  end.
  rewrite Hloop. eexists st', _. split; [reflexivity|].
  split; [exact Hfc|]. split.
  - rewrite Hlog. cbn [CameraViewer.log]. rewrite <- !app_assoc. reflexivity.
  - rewrite !count_calls_app, Cr, Ck, Cw. cbn. auto.
Qed.

Definition empty_images_tick : CameraViewer.tick :=
  {| CameraViewer.interrupt := false;
     CameraViewer.arrival :=
       CameraViewer.Message (packb (<["images" := VDict ∅]> ∅));
     CameraViewer.t_recv := 1%Q; CameraViewer.t_latency := fun _ => 1%Q;
     CameraViewer.key := 113 |}.

Lemma viewer_waits_when_idle_witness :
  ∃ st' extra,
    CameraViewer.run (fun _ => None) (fun _ => None)
      [timeout_tick false; empty_images_tick] (with_history [])
    = (Unfinished, st') ∧
    CameraViewer.frame_count (CameraViewer.self st')
    = CameraViewer.frame_count (CameraViewer.self (with_history [])) ∧
    CameraViewer.log st' = CameraViewer.log (with_history []) ++ extra ∧
    count_calls is_recv extra = 2%nat ∧
    count_calls is_waitKey extra = 0%nat ∧
    count_calls is_window extra = 0%nat.
Proof.
  apply (viewer_waits_when_idle (fun _ => None) (fun _ => None)
           [timeout_tick false; empty_images_tick] (with_history [])).
  constructor; [split; [reflexivity | left; reflexivity]|].
  constructor; [|constructor].
  split; [reflexivity|]. right.
  exists (<["images" := VDict ∅]> ∅). split; reflexivity.
Defined.


(** ** Exceptions that end the viewer *)

Definition raises {S A} (e : exn) (m : M S A) : Prop := ∀ st, (m st).1 = Raise e.

Definition returns {S A} (m : M S A) : Prop := ∀ st, ∃ a, (m st).1 = Ret a.

Lemma raises_bind {S A B} e (m : M S A) (k : A → M S B) :
  returns m → (∀ a, raises e (k a)) → raises e (bind m k).
Proof.
  intros Hm Hk st. unfold bind. destruct (Hm st) as [a Ha].
  destruct (m st) as [[a'|e'|] st1]; cbn in Ha; try discriminate Ha. apply Hk.
Qed.

Lemma raises_try_except {S A} e (body handler : M S A) catches :
  raises e body → catches e = false → raises e (try_except body catches handler).
Proof.
  intros Hb Hc st. unfold try_except. specialize (Hb st).
  destruct (body st) as [[a|e'|] st1]; cbn in Hb; try discriminate Hb.
  injection Hb as ->. rewrite Hc. reflexivity.
Qed.

Lemma raises_try_finally {S A} e (body : M S A) (cleanup : M S unit) :
  raises e body → returns cleanup → raises e (try_finally body cleanup).
Proof.
  intros Hb Hc st. unfold try_finally. specialize (Hb st).
  destruct (body st) as [[a|e'|] st1]; cbn in Hb; try discriminate Hb.
  injection Hb as ->. destruct (Hc st1) as [u Hu].
  destruct (cleanup st1) as [[u'|e'|] st2]; cbn in Hu; try discriminate Hu.
  reflexivity.
Qed.

Lemma returns_bind {S A B} (m : M S A) (k : A → M S B) :
  returns m → (∀ a, returns (k a)) → returns (bind m k).
Proof.
  intros Hm Hk st. unfold bind. destruct (Hm st) as [a Ha].
  destruct (m st) as [[a'|e'|] st1]; cbn in Ha; try discriminate Ha. apply Hk.
Qed.

Lemma returns_modify {S} (f : S → S) : returns (modify f).
Proof. intros st. exists tt. reflexivity. Qed.

Lemma returns_ret {S A} (a : A) : returns (@ret S A a).
Proof. intros st. exists a. reflexivity. Qed.

Lemma returns_get {S} : returns (@get S).
Proof. intros st. exists st. reflexivity. Qed.

Ltac returns_step :=
  lazymatch goal with
  | |- returns (bind _ _) => apply returns_bind; [ | intros ]
  | |- returns (ret _) => apply returns_ret
  | |- returns get => apply returns_get
  | |- returns (CameraViewer.emit _) => apply returns_modify
  | |- returns (CameraViewer.update _) => apply returns_modify
  | |- returns (if _ then _ else _) => case_match
  end.

Section ViewerErrors.
Import CameraViewer.
Variable b64decode : string → option (list Z).
Variable imdecode : list Z → option image.

(** What [recv] or the unpacking raises for this arrival, if anything. *)
Definition arrival_error (r : received) : option exn :=
  match r with
  | Message Garbage => Some UnpackException
  | Failed => Some ZMQError
  | _ => None
  end.

Lemma receive_frame_error r now st e :
  arrival_error r = Some e →
  receive_frame r now st
  = (Raise e, {| self := self st; log := log st ++ [zmq_recv] |}).
Proof.
  destruct r as [|[v|]|]; intros [= <-]; reflexivity.
Qed.

Lemma idle_then ticks_ more :
  Forall idle ticks_ →
  ∀ st, ∃ st', loop b64decode imdecode (ticks_ ++ more) st
               = loop b64decode imdecode more st'.
Proof.
  induction 1 as [|tk rest Htk _ IH]; intros st; cbn [app loop].
  - exists st. reflexivity.
  - destruct (idle_iteration b64decode imdecode tk st Htk) as (st1 & Hit & _).
    destruct (IH st1) as (st' & Hloop).
    exists st'. unfold bind. rewrite Hit. exact Hloop.
Qed.

Lemma loop_raises waits tk rest e :
  Forall idle waits → interrupt tk = false →
  arrival_error (arrival tk) = Some e →
  raises e (loop b64decode imdecode (waits ++ tk :: rest)).
Proof.
  intros Hidle Hint Herr st.
  destruct (idle_then waits (tk :: rest) Hidle st) as (st' & ->).
  cbn [loop]. unfold bind, iteration. rewrite Hint.
  unfold bind. rewrite (receive_frame_error _ _ _ _ Herr). reflexivity.
Qed.

Lemma arrival_error_not_interrupt r e :
  arrival_error r = Some e → is_KeyboardInterrupt e = false.
Proof. destruct r as [|[v|]|]; intros [= <-]; reflexivity. Qed.
End ViewerErrors.

(** X12. A message that cannot be unpacked, or a receive that fails other
    than by the timeout, ends the viewer: [receive_frame] lets the exception
    through with the FPS history and the arrival time untouched, the loop
    does not catch it however many idle passes came before, and [main]
    ends with that exception (after its [finally]). *)
Theorem viewer_ends_on_bad_message
    (b64decode : string → option (list Z)) (imdecode : list Z → option image)
    (a : CameraViewer.args) (t_init : Q)
    (waits : list CameraViewer.tick) (tk : CameraViewer.tick)
    (rest : list CameraViewer.tick) (e : exn) :
  Forall idle waits →
  CameraViewer.interrupt tk = false →
  (CameraViewer.arrival tk = CameraViewer.Message Garbage ∧ e = UnpackException) ∨
  (CameraViewer.arrival tk = CameraViewer.Failed ∧ e = ZMQError) →
  (∀ now st,
     CameraViewer.receive_frame (CameraViewer.arrival tk) now st
     = (Raise e, {| CameraViewer.self := CameraViewer.self st;
                    CameraViewer.log := CameraViewer.log st ++ [zmq_recv] |})) ∧
  (CameraViewer.main b64decode imdecode a t_init (waits ++ tk :: rest)).1 = Raise e.
Proof.
  intros Hidle Hint Hbad.
  assert (Herr : arrival_error (CameraViewer.arrival tk) = Some e).
  { destruct Hbad as [[-> ->]|[-> ->]]; reflexivity. }
  split.
  - intros now st. apply receive_frame_error. exact Herr.
  - unfold CameraViewer.main.
    match goal with
    | |- (let (r, st) := ?m ?s in _).1 = _ =>
        assert (Hm : raises e m); [|specialize (Hm s); destruct (m s); exact Hm]
    end.
    apply raises_try_finally.
    + unfold CameraViewer.connect, CameraViewer.enable_save, CameraViewer.run.
      repeat (apply raises_bind; [repeat returns_step | intros]).
      apply raises_try_except.
      * apply loop_raises; assumption.
      * apply (arrival_error_not_interrupt _ _ Herr).
    + intros st. rewrite viewer_close_spec. exists tt. reflexivity.
Qed.

Lemma viewer_ends_on_bad_message_witness :
  (CameraViewer.main (fun _ => None) (fun _ => None) viewer_args 0%Q
     ([timeout_tick false] ++
      {| CameraViewer.interrupt := false;
         CameraViewer.arrival := CameraViewer.Message Garbage;
         CameraViewer.t_recv := 1%Q; CameraViewer.t_latency := fun _ => 1%Q;
         CameraViewer.key := (-1) |} :: [])).1 = Raise UnpackException.
Proof.
  apply (viewer_ends_on_bad_message (fun _ => None) (fun _ => None) viewer_args 0%Q
           [timeout_tick false]).
  - constructor; [split; [reflexivity | left; reflexivity] | constructor].
  - reflexivity.
  - left. split; reflexivity.
Defined.


(** ** Saving frames *)

Definition is_file_write (c : call) : bool :=
  match c with cv2_imwrite _ _ _ _ | os_makedirs _ => true | _ => false end.

(** As long as no directory is set, none gets set and nothing is written. *)
Definition unsaved (st st' : CameraViewer.state) : Prop :=
  CameraViewer.save_dir (CameraViewer.self st) = None →
  CameraViewer.save_dir (CameraViewer.self st') = None ∧
  ∃ extra, CameraViewer.log st' = CameraViewer.log st ++ extra ∧
           count_calls is_file_write extra = 0%nat.

#[local] Instance unsaved_preorder : PreOrder unsaved.
Proof.
  split.
  - intros st H. split; [exact H|]. exists []. rewrite app_nil_r. auto.
  - intros st1 st2 st3 H12 H23 H1.
    destruct (H12 H1) as (H2 & e1 & L1 & C1).
    destruct (H23 H2) as (H3 & e2 & L2 & C2).
    split; [exact H3|]. exists (e1 ++ e2).
    rewrite L2, L1, app_assoc, count_calls_app, C1, C2. auto.
Qed.

Lemma unsaved_emit c (st : CameraViewer.state) :
  is_file_write c = false →
  unsaved st {| CameraViewer.self := CameraViewer.self st;
                CameraViewer.log := CameraViewer.log st ++ [c] |}.
Proof.
  intros Hc H. split; [exact H|]. exists [c]. split; [reflexivity|].
  rewrite count_calls_cons, Hc. reflexivity.
Qed.

Lemma unsaved_update f (st : CameraViewer.state) :
  (∀ v, CameraViewer.save_dir (f v) = CameraViewer.save_dir v) →
  unsaved st {| CameraViewer.self := f (CameraViewer.self st);
                CameraViewer.log := CameraViewer.log st |}.
Proof.
  intros Hf H. cbn. rewrite Hf. split; [exact H|]. exists [].
  rewrite app_nil_r. auto.
Qed.

Ltac unsaved_leaf :=
  first [ apply unsaved_emit; reflexivity
        | apply unsaved_update; intros; reflexivity ].

Section ViewerSaving.
Import CameraViewer.
Variable b64decode : string → option (list Z).
Variable imdecode : list Z → option image.

Lemma receive_frame_unsaved r now : steady unsaved (receive_frame r now).
Proof. unfold receive_frame. repeat steady_step; unsaved_leaf. Qed.

(** The end of [show_camera]: the frame is written only with a directory. *)
Lemma save_step_unsaved camera_name image_ :
  steady unsaved
    (st <- get ;;
     match save_frames (self st), save_dir (self st) with
     | true, Some dir =>
         if String.eqb dir EmptyString then ret tt
         else emit (cv2_imwrite dir camera_name (frame_count (self st)) image_)
     | _, _ => ret tt
     end)%py.
Proof.
  apply steady_bind_get. intros st Hnone. rewrite Hnone.
  destruct (save_frames (self st)); cbn; (split; [exact Hnone|]);
    exists []; rewrite app_nil_r; auto.
Qed.

Lemma show_camera_unsaved fps_ timestamps tk entry :
  steady unsaved (show_camera b64decode imdecode fps_ timestamps tk entry).
Proof.
  unfold show_camera, decode_image, timestamp_of.
  repeat first [ apply save_step_unsaved | steady_step ]; unsaved_leaf.
Qed.

Lemma viewer_iteration_unsaved tk : steady unsaved (iteration b64decode imdecode tk).
Proof.
  unfold iteration, dict_get, get_fps, items.
  repeat first [ apply receive_frame_unsaved | apply show_camera_unsaved | steady_step ];
    unsaved_leaf.
Qed.

Lemma viewer_loop_unsaved ticks_ : steady unsaved (loop b64decode imdecode ticks_).
Proof.
  induction ticks_ as [|tk rest IH]; cbn [loop].
  - steady_step.
  - apply steady_bind; steady_side; [apply viewer_iteration_unsaved|].
    intros []; [exact IH | steady_step].
Qed.

Lemma viewer_main_unsaved a ticks_ :
  arg_save a = false →
  steady unsaved
    (try_finally
       (connect ;;;
        (when (arg_save a) then enable_save (arg_save_dir a)) ;;;
        run b64decode imdecode ticks_)%py close).
Proof.
  intros Hsave. rewrite Hsave. unfold connect, run, close.
  apply steady_try_finally; steady_side;
    repeat first [ apply viewer_loop_unsaved | steady_step ]; unsaved_leaf.
Qed.
End ViewerSaving.

(** X13. Without [--save] the viewer writes nothing: no directory is
    created and no frame is written in any execution of [main], whatever
    arrives and whatever keys are pressed.  In particular the [s] key, which
    flips [save_frames] and reports frame saving as on, saves nothing as
    long as no directory was set by [enable_save]. *)
Theorem viewer_without_save_writes_nothing
    (b64decode : string → option (list Z)) (imdecode : list Z → option image)
    (a : CameraViewer.args) (t_init : Q) (ticks_ : list CameraViewer.tick) :
  CameraViewer.arg_save a = false →
  count_calls is_file_write
    (CameraViewer.main b64decode imdecode a t_init ticks_).2 = 0%nat.
Proof.
  intros Hsave. unfold CameraViewer.main.
  pose proof (viewer_main_unsaved b64decode imdecode a ticks_ Hsave
                (CameraViewer.__init__ (CameraViewer.arg_ip a)
                   (CameraViewer.arg_port a) t_init) eq_refl)
    as (_ & extra & Hlog & Hcount).
  destruct (try_finally _ _ _) as [r st]. cbn [snd] in *.
  rewrite Hlog, count_calls_app, Hcount. reflexivity.
Qed.

(** A frame with one camera arrives and [s] is pressed. *)
Definition pressed_s_tick : CameraViewer.tick :=
  {| CameraViewer.interrupt := false;
     CameraViewer.arrival :=
       CameraViewer.Message
         (packb (<["images" := VDict (<["ego_view" := VStr "anVzdCBhIGZyYW1l"]> ∅)]> ∅));
     CameraViewer.t_recv := 1%Q; CameraViewer.t_latency := fun _ => 1%Q;
     CameraViewer.key := 115 |}.

Lemma viewer_without_save_writes_nothing_witness :
  count_calls is_file_write
    (CameraViewer.main (fun _ => Some []) (fun _ => Some [[[1; 2; 3]]])
       viewer_args 0%Q [pressed_s_tick; pressed_s_tick]).2 = 0%nat.
Proof.
  apply viewer_without_save_writes_nothing. reflexivity.
Defined.


(** ** The FPS window while viewing *)

(** A full window stays within its bound. *)
Definition window_kept (st st' : CameraViewer.state) : Prop :=
  (length (CameraViewer.fps_history (CameraViewer.self st)) ≤ CameraViewer.maxlen)%nat →
  (length (CameraViewer.fps_history (CameraViewer.self st')) ≤ CameraViewer.maxlen)%nat.

#[local] Instance window_kept_preorder : PreOrder window_kept.
Proof.
  split; [intros st H; exact H|].
  intros st1 st2 st3 H12 H23 H. apply H23, H12, H.
Qed.

Lemma window_kept_emit c (st : CameraViewer.state) :
  window_kept st {| CameraViewer.self := CameraViewer.self st;
                    CameraViewer.log := CameraViewer.log st ++ [c] |}.
Proof. intros H. exact H. Qed.

Lemma window_kept_update f (st : CameraViewer.state) :
  (∀ v, (length (CameraViewer.fps_history v) ≤ CameraViewer.maxlen)%nat →
        (length (CameraViewer.fps_history (f v)) ≤ CameraViewer.maxlen)%nat) →
  window_kept st {| CameraViewer.self := f (CameraViewer.self st);
                    CameraViewer.log := CameraViewer.log st |}.
Proof. intros Hf H. apply Hf, H. Qed.

Ltac window_leaf :=
  first [ apply window_kept_emit
        | apply window_kept_update; intros v Hv; cbn;
          first [ exact Hv | apply deque_append_length; exact Hv ]
        | intros Hw; exact Hw ].

Section ViewerWindow.
Import CameraViewer.
Variable b64decode : string → option (list Z).
Variable imdecode : list Z → option image.

Lemma viewer_iteration_window tk : steady window_kept (iteration b64decode imdecode tk).
Proof.
  unfold iteration, receive_frame, dict_get, get_fps, items.
  repeat first
    [ steady_step
    | unfold show_camera, decode_image, timestamp_of ];
    window_leaf.
Qed.

Lemma viewer_loop_window ticks_ : steady window_kept (loop b64decode imdecode ticks_).
Proof.
  induction ticks_ as [|tk rest IH]; cbn [loop].
  - steady_step.
  - apply steady_bind; steady_side; [apply viewer_iteration_window|].
    intros []; [exact IH | steady_step].
Qed.
End ViewerWindow.

(** X14. The FPS window is bounded while viewing: from the constructor on,
    through connecting, enabling the saving and any passes of [run] (frames,
    timeouts, key presses, exceptions), [fps_history] never holds more than
    30 samples. *)
Theorem viewer_fps_window_bounded
    (b64decode : string → option (list Z)) (imdecode : list Z → option image)
    (a : CameraViewer.args) (t_init : Q) (ticks_ : list CameraViewer.tick) :
  let st0 := CameraViewer.__init__ (CameraViewer.arg_ip a) (CameraViewer.arg_port a) t_init in
  let viewing :=
    (CameraViewer.connect ;;;
     (when (CameraViewer.arg_save a)
      then CameraViewer.enable_save (CameraViewer.arg_save_dir a)) ;;;
     CameraViewer.run b64decode imdecode ticks_)%py in
  (length (CameraViewer.fps_history (CameraViewer.self (viewing st0).2))
   ≤ CameraViewer.maxlen)%nat.
Proof.
  cbn zeta.
  assert (H : steady window_kept
    (CameraViewer.connect ;;;
     (when (CameraViewer.arg_save a)
      then CameraViewer.enable_save (CameraViewer.arg_save_dir a)) ;;;
     CameraViewer.run b64decode imdecode ticks_)%py).
  { unfold CameraViewer.connect, CameraViewer.enable_save, CameraViewer.run.
    repeat first [ apply viewer_loop_window | steady_step ]; window_leaf. }
  apply H. cbn. unfold CameraViewer.maxlen. lia.
Qed.


(** ** A frame that can be shown *)



Section ViewerShows.
Import CameraViewer.
Variable b64decode : string → option (list Z).
Variable imdecode : list Z → option image.

(** The image a dictionary entry decodes to, if it does. *)
Definition decoded (v : pyval) : option image :=
  match v with
  | VStr s =>
      match b64decode s with
      | Some color_data => imdecode color_data
      | None => None
      end
  | _ => None
  end.



End ViewerShows.








(** ** The FPS report of the producer *)

(** The clock does not run backwards between the two readings of a
    report. *)
Definition steady_clock (tk : ZEDStreamer.tick) : Prop :=
  (ZEDStreamer.t_fps_check tk <= ZEDStreamer.t_fps_now tk)%Q.

(** A report divides the frame count by at least two seconds. *)
Definition report_defined (c : call) : Prop :=
  match c with
  | py_print_fps _ elapsed => (2 <= elapsed)%Q
  | _ => True
  end.

Section ProducerReports.
Import ZEDStreamer.

Lemma report_calls_defined tk fc ft :
  steady_clock tk → Forall report_defined (report_calls tk fc ft).
Proof.
  intros Hclock. unfold report_calls, report_due.
  destruct (Qle_bool 2 (t_fps_check tk - ft)) eqn:Hdue; [|constructor].
  apply Qle_bool_iff in Hdue. unfold steady_clock in Hclock.
  repeat constructor. cbn. lra.
Qed.

Lemma pass_calls_defined display duration start tk fc ft s :
  steady_clock tk → Forall report_defined (pass_calls display duration start tk fc ft s).
Proof.
  intros Hclock. pose proof (report_calls_defined tk (fc + 1) ft Hclock) as Hr.
  unfold pass_calls, frame_calls, grab_calls, publish_calls, write_calls, preview_calls.
  destruct (duration_over duration start (t_loop tk)); [constructor|].
  destruct (is_success (grab_status (shot tk))); [|repeat constructor].
  destruct (is_set (zmq_socket s)), (is_set (video_writer s)), (depth_on s),
    display, (quit_key (key tk));
    cbn [app]; repeat (first [exact Hr | constructor; [exact I|]]); constructor.
Qed.

Lemma loop_calls_defined display duration start ticks_ s :
  Forall steady_clock ticks_ →
  ∀ fc ft, Forall report_defined (loop_calls display duration start ticks_ fc ft s).
Proof.
  induction 1 as [|tk rest Htk _ IH]; intros fc ft; cbn [loop_calls]; [constructor|].
  destruct (interrupt tk); [constructor|].
  apply Forall_app. split; [apply pass_calls_defined; exact Htk|].
  destruct (pass_result display duration start tk fc ft) as [[[] fc'] ft'];
    [apply IH | constructor].
Qed.
End ProducerReports.

(** X16. Under a clock that does not run backwards between the readings
    of a report, every FPS report of the producer divides the frame count by
    an elapsed time of at least two seconds: the division is always
    defined, in every execution of [main]. *)
Theorem main_fps_reports_defined (a : ZEDStreamer.args) (w : ZEDStreamer.world) :
  Forall steady_clock (ZEDStreamer.ticks w) →
  Forall report_defined (ZEDStreamer.main a w).2.
Proof.
  intros Hclock.
  destruct (is_success (ZEDStreamer.open_status (ZEDStreamer.cam w))) eqn:Hopen.
  - rewrite (main_eq a w Hopen). cbn [snd].
    unfold main_calls, init_calls, server_calls, writer_calls, run_calls, close_calls.
    repeat (apply Forall_app; split).
    + repeat constructor.
    + destruct (Z.ltb 0 (ZEDStreamer.arg_port a)), (ZEDStreamer.zmq_available w),
        (ZEDStreamer.bind_ok w); repeat constructor.
    + destruct (bind_fails a w); [constructor|].
      apply Forall_app. split; [destruct (ZEDStreamer.save_path a); repeat constructor|].
      constructor; [exact I|]. apply Forall_app. split.
      * apply loop_calls_defined. exact Hclock.
      * destruct (loop_end _ _ _ _ _ _) as [|[]|]; repeat constructor.
    + destruct (main_end a w); [|..|constructor];
        destruct (is_set (ZEDStreamer.video_writer (prepared a w))),
          (is_set (ZEDStreamer.zmq_socket (prepared a w))),
          (is_set (ZEDStreamer.zmq_context (prepared a w))); repeat constructor.
  - unfold ZEDStreamer.main, ZEDStreamer.__init__. rewrite Hopen. repeat constructor.
Qed.

Definition reporting_tick : ZEDStreamer.tick :=
  {| ZEDStreamer.interrupt := false; ZEDStreamer.t_loop := 3%Q;
     ZEDStreamer.shot := sample_grab; ZEDStreamer.key := (-1);
     ZEDStreamer.t_fps_check := 3%Q; ZEDStreamer.t_fps_now := 3%Q;
     ZEDStreamer.t_fps_reset := 3%Q |}.

Definition reporting_world : ZEDStreamer.world :=
  {| ZEDStreamer.unicode_lower := fun c => [c];
     ZEDStreamer.cam := sample_camera;
     ZEDStreamer.zmq_available := true;
     ZEDStreamer.bind_ok := true;
     ZEDStreamer.t_start := 0%Q;
     ZEDStreamer.t_fps := 0%Q;
     ZEDStreamer.ticks := [reporting_tick] |}.

Example reporting_world_reports :
  py_print_fps 1 3%Q ∈ (ZEDStreamer.main sample_args reporting_world).2.
Proof. vm_compute. repeat first [left | right]. Qed.

Lemma main_fps_reports_defined_witness :
  Forall report_defined (ZEDStreamer.main sample_args reporting_world).2.
Proof.
  apply main_fps_reports_defined.
  constructor; [|constructor]. unfold steady_clock. cbn. lra.
Defined.


(** X6. How the producer can end, as far as the script decides it (the
    calls into the camera, the transport and the windows succeeding, and the
    clock not running backwards within a report, so that the report's
    division is defined).  [run] never raises: its loop reads only keys that
    [grab_frame] always sets, and an interrupt is caught; it returns with
    [running] false and every other field as before, or the passes supplied
    end first and [running] is still true.  [main] therefore ends normally,
    or with the error of a camera that does not open, or with the error of a
    bind that fails, and with nothing else. *)
Theorem producer_outcomes :
  (∀ display duration t0 t1 ticks_ st,
     Forall steady_clock ticks_ →
     ((ZEDStreamer.run display duration t0 t1 ticks_ st).1 = Ret tt ∧
      ZEDStreamer.self (ZEDStreamer.run display duration t0 t1 ticks_ st).2
      = ZEDStreamer.set_running false (ZEDStreamer.self st)) ∨
     ((ZEDStreamer.run display duration t0 t1 ticks_ st).1 = Unfinished ∧
      ZEDStreamer.self (ZEDStreamer.run display duration t0 t1 ticks_ st).2
      = ZEDStreamer.set_running true (ZEDStreamer.self st))) ∧
  (∀ a w e,
     Forall steady_clock (ZEDStreamer.ticks w) →
     (ZEDStreamer.main a w).1 = Raise e →
     (e = RuntimeError "Failed to open ZED camera: " ∧
      is_success (ZEDStreamer.open_status (ZEDStreamer.cam w)) = false) ∨
     (e = ZMQError ∧ ZEDStreamer.bind_ok w = false)).
Proof.
  split.
  - intros display duration t0 t1 ticks_ [s l] _. rewrite run_eq. cbn [fst snd ZEDStreamer.self].
    destruct (loop_end display duration t0 ticks_ 0 t1); auto.
  - intros a w e _.
    destruct (is_success (ZEDStreamer.open_status (ZEDStreamer.cam w))) eqn:Hopen.
    + rewrite (main_eq a w Hopen). cbn [fst]. unfold main_end, bind_fails.
      destruct (publishing a w), (ZEDStreamer.bind_ok w); cbn [andb negb];
        try (destruct (loop_end _ _ _ _ _ _); discriminate).
      intros [= <-]. auto.
    + unfold ZEDStreamer.main, ZEDStreamer.__init__. rewrite Hopen. cbn [fst].
      intros [= <-]. auto.
Qed.

Lemma producer_outcomes_witness :
  (RuntimeError "Failed to open ZED camera: " = RuntimeError "Failed to open ZED camera: " ∧
   is_success (ZEDStreamer.open_status (ZEDStreamer.cam (sample_world (FAILURE 2)))) = false) ∨
  (RuntimeError "Failed to open ZED camera: " = ZMQError ∧
   ZEDStreamer.bind_ok (sample_world (FAILURE 2)) = false).
Proof.
  apply (proj2 producer_outcomes sample_args (sample_world (FAILURE 2))).
  - repeat constructor; unfold steady_clock; cbn; lra.
  - reflexivity.
Defined.






(** ** The files written by the viewer *)

(** The camera and the index of every frame written, in order. *)
Fixpoint writes (calls : list call) : list (string * Z) :=
  match calls with
  | [] => []
  | cv2_imwrite _ camera index _ :: rest => (camera, index) :: writes rest
  | _ :: rest => writes rest
  end.


Section ViewerWrites.
Import CameraViewer.
Variable b64decode : string → option (list Z).
Variable imdecode : list Z → option image.

End ViewerWrites.

(** The files written and the frame counter are as before. *)
Definition same_writes (st st' : CameraViewer.state) : Prop :=
  writes (CameraViewer.log st') = writes (CameraViewer.log st) ∧
  CameraViewer.frame_count (CameraViewer.self st')
  = CameraViewer.frame_count (CameraViewer.self st).

#[local] Instance same_writes_preorder : PreOrder same_writes.
Proof.
  split.
  - intros st. split; reflexivity.
  - intros st1 st2 st3 [W12 F12] [W23 F23]. split; congruence.
Qed.











Section ViewerFresh.
Import CameraViewer.
Variable b64decode : string → option (list Z).
Variable imdecode : list Z → option image.










End ViewerFresh.



(** ** Saving while viewing *)

(** The windows shown and the images in them, in order. *)
Fixpoint shown_images (calls : list call) : list (string * image) :=
  match calls with
  | [] => []
  | cv2_imshow window image_ :: rest => (window, image_) :: shown_images rest
  | _ :: rest => shown_images rest
  end.

(** The cameras whose frames were written and the images written, in order. *)
Fixpoint saved_images (calls : list call) : list (string * image) :=
  match calls with
  | [] => []
  | cv2_imwrite _ camera _ image_ :: rest => (camera, image_) :: saved_images rest
  | _ :: rest => saved_images rest
  end.

Lemma shown_images_app l1 l2 :
  shown_images (l1 ++ l2) = shown_images l1 ++ shown_images l2.
Proof.
  induction l1 as [|c l1 IH]; [reflexivity|].
  destruct c; cbn; rewrite ?IH; reflexivity.
Qed.

Lemma saved_images_app l1 l2 :
  saved_images (l1 ++ l2) = saved_images l1 ++ saved_images l2.
Proof.
  induction l1 as [|c l1 IH]; [reflexivity|].
  destruct c; cbn; rewrite ?IH; reflexivity.
Qed.

(** The window in which the camera of a saved image is shown. *)
Definition window_of (saved : string * image) : string * image :=
  (("G1 Camera - " ++ saved.1)%string, saved.2).

Definition saved_into (dir : string) (c : call) : Prop :=
  match c with cv2_imwrite d _ _ _ => d = dir | _ => True end.

Section ViewerSaves.
Import CameraViewer.
Variable b64decode : string → option (list Z).
Variable imdecode : list Z → option image.
Variable dir : string.
Hypothesis dir_given : dir ≠ EmptyString.

(** While saving is on and stays on, what is shown is what is written. *)
Definition saving (st st' : state) : Prop :=
  save_frames (self st) = true → save_dir (self st) = Some dir →
  save_frames (self st') = true ∧ save_dir (self st') = Some dir ∧
  ∃ extra, log st' = log st ++ extra ∧
           shown_images extra = window_of <$> saved_images extra ∧
           Forall (saved_into dir) extra.

#[local] Instance saving_preorder : PreOrder saving.
Proof.
  split.
  - intros st Hon Hdir. split; [exact Hon|]. split; [exact Hdir|].
    exists []. rewrite app_nil_r. repeat split. constructor.
  - intros st1 st2 st3 H12 H23 Hon Hdir.
    destruct (H12 Hon Hdir) as (Hon2 & Hdir2 & e1 & L1 & S1 & D1).
    destruct (H23 Hon2 Hdir2) as (Hon3 & Hdir3 & e2 & L2 & S2 & D2).
    split; [exact Hon3|]. split; [exact Hdir3|]. exists (e1 ++ e2).
    rewrite L2, L1, app_assoc, shown_images_app, saved_images_app, fmap_app, S1, S2.
    repeat split. apply Forall_app; auto.
Qed.









End ViewerSaves.


Definition saving_args : CameraViewer.args :=
  {| CameraViewer.arg_ip := "192.168.123.164"; CameraViewer.arg_port := 5555;
     CameraViewer.arg_save := true; CameraViewer.arg_save_dir := "./captured_frames" |}.


(** Saving on, switched off by [s] after the first frame and on again after
    the second: the first and the third frame are written. *)
Example saving_follows_the_s_key :
  writes (CameraViewer.main (fun _ => Some []) (fun _ => Some [[[1; 2; 3]]])
            saving_args 0%Q [pressed_s_tick; pressed_s_tick; pressed_s_tick]).2
  = [("ego_view", 0); ("ego_view", 2)].
Proof. vm_compute. reflexivity. Qed.


(** ** Depth *)



Section ProducerDepth.
Import ZEDStreamer.




End ProducerDepth.

